(** * face-mask-analyzer: the decision pipeline of [src/app.py]

    A shallow embedding of the Streamlit script: the four backend functions
    ([analyze_image_for_mask], [detect_faces], [send_alert_email],
    [send_whatsapp_alert]) and the module-level code that runs when an
    image is present and the "Analyze Image" button is pressed.

    The script is effectful.  A computation threads the store of numpy
    arrays (arrays are mutable, shared objects), emits a trace of what it
    shows to the operator and requests from external services, and ends
    either with a value or with a raised Python exception. *)

From Stdlib Require Import ZArith String Ascii List Bool Floats.
From stdpp Require Import base option gmap strings list pretty.

Local Open Scope string_scope.
Local Open Scope Z_scope.
Local Open Scope list_scope.

(** ** Python values *)

(** Python [bytes]: an immutable sequence of bytes. *)
Abbreviation bytes := (list Byte.byte).

(** What [json.loads] can return: [None], [bool], [int], [float], [str],
    [list], [dict].  A [dict] keeps its keys in insertion order; [members]
    lists them in that order. *)
#[local] Unset Elimination Schemes.
Inductive json : Type :=
| JNull
| JBool (b : bool)
| JInt (n : Z)
| JFloat (f : float)
| JString (s : string)
| JArray (items : list json)
| JObject (members : list (string * json)).
#[local] Set Elimination Schemes.

(** Truth value testing ([if v:]): [None], [False], zero, and empty
    strings, lists and dicts are false. *)
Definition truthy (v : json) : bool :=
  match v with
  | JNull => false
  | JBool b => b
  | JInt n => negb (Z.eqb n 0)
  | JFloat f => negb (PrimFloat.eqb f PrimFloat.zero)
  | JString s => match s with EmptyString => false | String _ _ => true end
  | JArray items => match items with [] => false | _ :: _ => true end
  | JObject members => match members with [] => false | _ :: _ => true end
  end.

(** Key lookup in a dict. *)
Fixpoint dict_lookup (members : list (string * json)) (key : string) : option json :=
  match members with
  | [] => None
  | (k, v) :: rest => if String.eqb k key then Some v else dict_lookup rest key
  end.

(** [d.get(key, default)] on a dict. *)
Definition dict_get (members : list (string * json)) (key : string) (default : json) : json :=
  match dict_lookup members key with
  | Some v => v
  | None => default
  end.

(** The Python type name of a value, as attribute errors print it. *)
Definition type_name (v : json) : string :=
  match v with
  | JNull => "NoneType"
  | JBool _ => "bool"
  | JInt _ => "int"
  | JFloat _ => "float"
  | JString _ => "str"
  | JArray _ => "list"
  | JObject _ => "dict"
  end.

(** ** Exceptions and results *)

(** Exception classes the script tells apart; every one of them derives
    from [Exception]. *)
Inductive exn_class : Type :=
| FileNotFoundError
| AttributeError
| TypeError
| IndexError
| OtherException (name : string).

Record exn : Type := { exn_cls : exn_class; exn_str : string }.

Definition is_FileNotFoundError (e : exn) : bool :=
  match exn_cls e with FileNotFoundError => true | _ => false end.

Inductive result (A : Type) : Type :=
| Ok (a : A)
| Raise (e : exn).
Arguments Ok {A} a.
Arguments Raise {A} e.

(** The single quote character used by Python's attribute error text. *)
Definition sq : string := String (ascii_of_nat 39) EmptyString.
(** The double quote character. *)
Definition dq : string := String (ascii_of_nat 34) EmptyString.
(** The newline character. *)
Definition nl : string := String (ascii_of_nat 10) EmptyString.

Definition no_attribute (v : json) (attr : string) : exn :=
  {| exn_cls := AttributeError;
     exn_str := sq +:+ type_name v +:+ sq +:+ " object has no attribute " +:+ sq +:+ attr +:+ sq |}.

(** [v.get(key, default)]: only a dict has [get]. *)
Definition py_get (v : json) (key : string) (default : json) : result json :=
  match v with
  | JObject members => Ok (dict_get members key default)
  | _ => Raise (no_attribute v "get")
  end.

(** ** Images *)

Abbreviation pixel := (Z * Z * Z)%type.
(** A decoded image: rows of 3-channel pixels. *)
Abbreviation grid := (list (list pixel)).
(** A single-channel image. *)
Abbreviation gray_grid := (list (list Z)).
(** The identity of a numpy array in the store. *)
Abbreviation loc := positive.
Abbreviation heap := (gmap loc grid).

(** A loaded cascade classifier. *)
Record cascade : Type := { cascade_file : string }.

(** A detection: a row [(x, y, w, h)] of 32-bit integers. *)
Record facebox : Type := { fx : Z; fy : Z; fw : Z; fh : Z }.

(** Addition of two numpy [int32] scalars wraps around. *)
Definition wrap32 (z : Z) : Z := (z + 2 ^ 31) mod 2 ^ 32 - 2 ^ 31.
Definition int32_add (a b : Z) : Z := wrap32 (a + b).

(** ** Requests to the external services *)

Inductive content_part : Type :=
| TextPart (text : string)
| ImageUrlPart (url : string).

Record chat_message : Type := { role : string; content : list content_part }.

Record chat_request : Type :=
  { messages : list chat_message;
    model : string;
    response_format : string }.

Record email_message : Type :=
  { msg_From : string;
    msg_To : string;
    msg_Subject : string;
    msg_text : string;
    msg_text_subtype : string;
    msg_image : bytes;
    msg_image_name : string }.

Record smtp_session : Type :=
  { smtp_host : string;
    smtp_port : Z;
    smtp_user : string;
    smtp_password : string;
    smtp_message : email_message }.

Record whatsapp_message : Type :=
  { wa_account_sid : string;
    wa_auth_token : string;
    wa_from : string;
    wa_body : string;
    wa_to : string }.

(** ** Secrets (lines 23-31) *)

Record Secrets : Type :=
  { GROQ_API_KEY : string;
    SENDER_EMAIL : string;
    EMAIL_PASSWORD : string;
    RECEIVER_EMAIL : string;
    TWILIO_ACCOUNT_SID : string;
    TWILIO_AUTH_TOKEN : string;
    TWILIO_WHATSAPP_NUMBER : string;
    MY_WHATSAPP_NUMBER : string }.

(** ** The libraries and services the script calls

    Each field is what one library call answers: a value, or the exception
    it raises.  Nothing is assumed about them. *)
Record World : Type :=
  { (** [cv2.CascadeClassifier(path)] *)
    cv2_CascadeClassifier : string -> result cascade;
    (** [cv2.cvtColor(img, cv2.COLOR_BGR2GRAY)] *)
    cv2_cvtColor_BGR2GRAY : grid -> result gray_grid;
    (** [cv2.cvtColor(img, cv2.COLOR_RGB2BGR)] *)
    cv2_cvtColor_RGB2BGR : grid -> result grid;
    (** [face_cascade.detectMultiScale(gray, scaleFactor, minNeighbors, minSize)] *)
    detectMultiScale : cascade -> gray_grid -> float -> Z -> Z * Z -> result (list facebox);
    (** [cv2.rectangle(img, pt1, pt2, color, thickness)]: the pixels of
        [img] after the call *)
    cv2_rectangle : grid -> Z * Z -> Z * Z -> pixel -> Z -> result grid;
    (** [Image.open(buf).convert('RGB')] followed by [np.array] *)
    pil_open_rgb : bytes -> result grid;
    (** [base64.b64encode(b).decode('utf-8')] *)
    b64encode : bytes -> string;
    (** [Groq(api_key=...)] *)
    Groq : string -> result unit;
    (** [client.chat.completions.create(...)]: the [content] of each of the
        returned choices ([None] when a choice has none) *)
    groq_create : string -> chat_request -> result (list (option string));
    (** [json.loads(s)] *)
    json_loads : string -> result json;
    (** [str(v)] for a value that is not a [str] *)
    str_of_value : json -> string;
    (** [MIMEText(text, 'plain')] on a [str]: raises when the text cannot be
        encoded *)
    MIMEText_str : string -> result unit;
    (** [MIMEImage(data, name=...)]: raises when the image type cannot be
        guessed *)
    MIMEImage : bytes -> string -> result unit;
    (** the SMTP session: connect, [starttls], [login], [send_message], [quit] *)
    smtp_deliver : smtp_session -> result unit;
    (** [Client(sid, token)] *)
    twilio_Client : string -> string -> result unit;
    (** [client.messages.create(from_, body, to)] *)
    twilio_create : whatsapp_message -> result unit }.

(** ** Traces *)

(** Entries of the four backend functions, with their arguments.  The
    script keeps no such record; the trace notes each entry so that a
    statement can say how often, in which order and with which arguments a
    function was invoked. *)
Inductive call : Type :=
| Call_analyze_image_for_mask (image_bytes : bytes)
| Call_detect_faces (image_np : loc)
| Call_send_alert_email (subject : string) (body : json) (image_bytes : bytes)
| Call_send_whatsapp_alert (body : string).

Inductive event : Type :=
(* what the operator sees *)
| StError (msg : string)
| StWarning (msg : string)
| StToast (msg icon : string)
| StSpinner (msg : string)
| StSubheader (msg : string)
| StImage (img : loc) (pixels : option grid) (caption channels : string)
| Col1Success (msg : string)
| Col1Error (msg : string)
| Col2Info (msg : string)
(* a backend function is entered *)
| Enter (c : call)
(* a request leaves the process *)
| GroqRequest (api_key : string) (req : chat_request)
| SmtpRequest (s : smtp_session)
| TwilioRequest (m : whatsapp_message).

(** ** The monad of the script

    A computation takes the store and gives back its outcome, the store
    it leaves, and the entries it adds to the trace.  What was done before
    an exception is raised stays done. *)

Definition M (A : Type) : Type := heap -> result A * heap * list event.

Definition ret {A} (a : A) : M A := fun h => (Ok a, h, []).

Definition bind {A B} (m : M A) (k : A -> M B) : M B :=
  fun h =>
    match m h with
    | (Ok a, h1, t1) =>
        match k a h1 with
        | (r, h2, t2) => (r, h2, t1 ++ t2)
        end
    | (Raise e, h1, t1) => (Raise e, h1, t1)
    end.

#[export] Instance M_ret : MRet M := @ret.
#[export] Instance M_bind : MBind M := fun A B k m => bind m k.

(** [raise e] *)
Definition raise {A} (e : exn) : M A := fun h => (Raise e, h, []).

(** The answer of a library call. *)
Definition lift {A} (r : result A) : M A := fun h => (r, h, []).

(** Append an entry to the trace. *)
Definition emit (e : event) : M unit := fun h => (Ok tt, h, [e]).

(** [try: body  except Exception as e: handler(e)] *)
Definition try_except {A} (body : M A) (handler : exn -> M A) : M A :=
  fun h =>
    match body h with
    | (Ok a, h1, t1) => (Ok a, h1, t1)
    | (Raise e, h1, t1) =>
        match handler e h1 with
        | (r, h2, t2) => (r, h2, t1 ++ t2)
        end
    end.

(** Reading an array.  Every array the script names is in the store
    ([analysis_and_display] creates the one it passes on); for a location
    outside the store the model raises. *)
Definition deref (a : loc) : M grid :=
  fun h =>
    match h !! a with
    | Some g => (Ok g, h, [])
    | None => (Raise {| exn_cls := OtherException "NameError"; exn_str := "array is not defined" |}, h, [])
    end.

(** A new array holding [g]. *)
Definition alloc (g : grid) : M loc :=
  fun h => let a := fresh (dom h) in (Ok a, <[a := g]> h, []).

(** Overwriting the pixels of an array in place. *)
Definition store (a : loc) (g : grid) : M unit :=
  fun h => (Ok tt, <[a := g]> h, []).

(** ** 2. Face detection (lines 69-86) *)

(** [scaleFactor=1.1] *)
Definition scaleFactor : float := 0x1.199999999999ap+0%float.

(** [cv2.rectangle(image_with_boxes, (x, y), (x+w, y+h), (255, 0, 0), 2)]:
    the array is changed in place. *)
Definition draw_box (W : World) (image_with_boxes : loc) (b : facebox) : M unit :=
  pixels ← deref image_with_boxes;
  pixels' ← lift (cv2_rectangle W pixels (fx b, fy b)
                    (int32_add (fx b) (fw b), int32_add (fy b) (fh b)) (255, 0, 0) 2);
  store image_with_boxes pixels'.

(** [for (x, y, w, h) in faces: ...] *)
Fixpoint draw_boxes (W : World) (image_with_boxes : loc) (faces : list facebox) : M unit :=
  match faces with
  | [] => mret tt
  | b :: rest => draw_box W image_with_boxes b;; draw_boxes W image_with_boxes rest
  end.

(** [image_np.copy()] *)
Definition np_copy (a : loc) : M loc :=
  pixels ← deref a; alloc pixels.

(** The [try] block of [detect_faces] (lines 71-80). *)
Definition detect_faces_try (W : World) (image_np : loc) : M (loc * nat) :=
  face_cascade ← lift (cv2_CascadeClassifier W "haarcascade_frontalface_default.xml");
  pixels ← deref image_np;
  gray ← lift (cv2_cvtColor_BGR2GRAY W pixels);
  faces ← lift (detectMultiScale W face_cascade gray scaleFactor 5 (30, 30));
  image_with_boxes ← np_copy image_np;
  draw_boxes W image_with_boxes faces;;
  mret (image_with_boxes, length faces).

(** The two [except] clauses of [detect_faces] (lines 81-86). *)
Definition detect_faces_except (image_np : loc) (e : exn) : M (loc * nat) :=
  if is_FileNotFoundError e then
    emit (StError "haarcascade_frontalface_default.xml not found. Please download it.");;
    mret (image_np, 0%nat)
  else
    emit (StError ("Face detection error: " +:+ exn_str e));;
    mret (image_np, 0%nat).

Definition detect_faces (W : World) (image_np : loc) : M (loc * nat) :=
  emit (Enter (Call_detect_faces image_np));;
  try_except (detect_faces_try W image_np) (detect_faces_except image_np).

(** The pixels of an image after a rectangle has been drawn over each of
    [faces], in order: what the loop of lines 77-78 leaves in the array it
    draws on. *)
Fixpoint boxes_drawn (W : World) (pixels : grid) (faces : list facebox) : result grid :=
  match faces with
  | [] => Ok pixels
  | b :: rest =>
      match cv2_rectangle W pixels (fx b, fy b)
              (int32_add (fx b) (fw b), int32_add (fy b) (fh b)) (255, 0, 0) 2 with
      | Ok pixels' => boxes_drawn W pixels' rest
      | Raise e => Raise e
      end
  end.

(** ** 1. Classification by the language model (lines 42-66) *)

Definition prompt : string :=
  nl +:+ "        Analyze the person in the provided image. Respond with a JSON object that has two keys:"
  +:+ nl +:+ "        1. " +:+ dq +:+ "mask_detected" +:+ dq
  +:+ ": a boolean (true if a face mask is worn correctly, otherwise false)."
  +:+ nl +:+ "        2. " +:+ dq +:+ "reason" +:+ dq
  +:+ ": a brief string explaining your choice in 1-2 sentences."
  +:+ nl +:+ "        Provide only the raw JSON object in your response."
  +:+ nl +:+ "        ".

Definition mask_request (base64_image : string) : chat_request :=
  {| messages :=
       [ {| role := "user";
            content := [ TextPart prompt;
                         ImageUrlPart ("data:image/jpeg;base64," +:+ base64_image) ] |} ];
     model := "meta-llama/llama-4-scout-17b-16e-instruct";
     response_format := "json_object" |}.

(** [chat_completion.choices[0].message.content] *)
Definition first_content (choices : list (option string)) : result (option string) :=
  match choices with
  | c :: _ => Ok c
  | [] => Raise {| exn_cls := IndexError; exn_str := "list index out of range" |}
  end.

(** [json.loads(response_content)]; the content of a choice may be [None]. *)
Definition loads (W : World) (response_content : option string) : result json :=
  match response_content with
  | Some s => json_loads W s
  | None =>
      Raise {| exn_cls := TypeError;
               exn_str := "the JSON object must be str, bytes or bytearray, not NoneType" |}
  end.

(** The request of lines 52-61 for an image. *)
Definition groq_request (W : World) (image_bytes : bytes) : chat_request :=
  mask_request (b64encode W image_bytes).

(** The [try] block of [analyze_image_for_mask] (lines 44-63). *)
Definition analyze_image_for_mask_try (W : World) (cfg : Secrets) (image_bytes : bytes)
    : M json :=
  lift (Groq W (GROQ_API_KEY cfg));;
  let base64_image := b64encode W image_bytes in
  let req := mask_request base64_image in
  emit (GroqRequest (GROQ_API_KEY cfg) req);;
  choices ← lift (groq_create W (GROQ_API_KEY cfg) req);
  response_content ← lift (first_content choices);
  lift (loads W response_content).

Definition analyze_image_for_mask (W : World) (cfg : Secrets) (image_bytes : bytes) : M json :=
  emit (Enter (Call_analyze_image_for_mask image_bytes));;
  try_except
    (analyze_image_for_mask_try W cfg image_bytes)
    (fun e =>
       emit (StError ("Groq API Error: " +:+ exn_str e));;
       mret JNull).

(** ** 3. Email notification (lines 89-106) *)

(** [MIMEText(body, 'plain')] starts with [body.encode('us-ascii')]: only a
    [str] has [encode]. *)
Definition MIMEText (W : World) (body : json) : result string :=
  match body with
  | JString s =>
      match MIMEText_str W s with
      | Ok _ => Ok s
      | Raise e => Raise e
      end
  | _ => Raise (no_attribute body "encode")
  end.

(** The message built on lines 91-97. *)
Definition alert_message (cfg : Secrets) (subject text : string) (image_bytes : bytes)
    : email_message :=
  {| msg_From := SENDER_EMAIL cfg;
     msg_To := RECEIVER_EMAIL cfg;
     msg_Subject := subject;
     msg_text := text;
     msg_text_subtype := "plain";
     msg_image := image_bytes;
     msg_image_name := "violation_capture.jpg" |}.

(** The session of lines 99-103. *)
Definition alert_session (cfg : Secrets) (msg : email_message) : smtp_session :=
  {| smtp_host := "smtp.gmail.com";
     smtp_port := 587;
     smtp_user := SENDER_EMAIL cfg;
     smtp_password := EMAIL_PASSWORD cfg;
     smtp_message := msg |}.

Definition email_sent_toast : event := StToast "✅ Email alert sent successfully!" "📧".

Definition send_alert_email (W : World) (cfg : Secrets)
    (subject : string) (body : json) (image_bytes : bytes) : M unit :=
  emit (Enter (Call_send_alert_email subject body image_bytes));;
  try_except
    (text ← lift (MIMEText W body);
     lift (MIMEImage W image_bytes "violation_capture.jpg");;
     let msg := alert_message cfg subject text image_bytes in
     let session := alert_session cfg msg in
     emit (SmtpRequest session);;
     lift (smtp_deliver W session);;
     emit email_sent_toast)
    (fun e => emit (StError ("Failed to send email: " +:+ exn_str e))).

(** ** 4. WhatsApp notification (lines 109-119) *)

(** The message of lines 112-116. *)
Definition whatsapp_alert (cfg : Secrets) (body : string) : whatsapp_message :=
  {| wa_account_sid := TWILIO_ACCOUNT_SID cfg;
     wa_auth_token := TWILIO_AUTH_TOKEN cfg;
     wa_from := "whatsapp:" +:+ TWILIO_WHATSAPP_NUMBER cfg;
     wa_body := body;
     wa_to := "whatsapp:" +:+ MY_WHATSAPP_NUMBER cfg |}.

Definition whatsapp_sent_toast : event := StToast "✅ WhatsApp alert sent successfully!" "📱".

Definition send_whatsapp_alert (W : World) (cfg : Secrets) (body : string) : M unit :=
  emit (Enter (Call_send_whatsapp_alert body));;
  try_except
    (lift (twilio_Client W (TWILIO_ACCOUNT_SID cfg) (TWILIO_AUTH_TOKEN cfg));;
     let message := whatsapp_alert cfg body in
     emit (TwilioRequest message);;
     lift (twilio_create W message);;
     emit whatsapp_sent_toast)
    (fun e => emit (StError ("Failed to send WhatsApp message: " +:+ exn_str e))).

(** ** Analysis and display (lines 157-202) *)

(** [f"{v}"]: a [str] is inserted as it is, any other value through [str]. *)
Definition format_value (W : World) (v : json) : string :=
  match v with
  | JString s => s
  | _ => str_of_value W v
  end.

(** [st.image(img, caption=..., channels="BGR")] shows the pixels the array
    holds at that moment. *)
Definition st_image (img : loc) (caption : string) : M unit :=
  fun h => (Ok tt, h, [StImage img (h !! img) caption "BGR"]).

Definition no_faces_warning : string :=
  "No faces were detected in the image. Cannot proceed with mask analysis.".
Definition status_mask_detected : string := "**Status:** Mask Detected".
Definition status_violation : string := "**Status:** No Mask Detected (Violation)".
Definition sending_alerts_warning : string := "Violation detected! Sending alerts...".
Definition alert_subject : string := "ALERT: Face Mask Violation Detected!".
Definition whatsapp_heading : string :=
  "🚨 *ALERT: Face Mask Violation!* 🚨" +:+ nl +:+ nl +:+ "*Reason:* ".

(** The body of [if st.button("Analyze Image"):] (lines 168-202).
    [st.columns(2)] only lays out the page and leaves no entry; the two
    columns are told apart by the entries written to them. *)
Definition on_analyze_image (W : World) (cfg : Secrets) (alerts_enabled : bool)
    (image_bytes : bytes) (image_cv : loc) : M unit :=
  emit (StSpinner "Step 1/2: Detecting faces...");;
  '(image_with_boxes, num_faces) ← detect_faces W image_cv;
  if Nat.eqb num_faces 0 then
    emit (StWarning no_faces_warning);;
    st_image image_with_boxes "Face Detection Result"
  else
    st_image image_with_boxes
      ("Face Detection Result: " +:+ pretty num_faces +:+ " face(s) found!");;
    emit (StSpinner "Step 2/2: Analyzing for mask with Meta Llama 4...");;
    analysis_result ← analyze_image_for_mask W cfg image_bytes;
    if truthy analysis_result then
      emit (StSubheader "📈 Analysis Complete");;
      mask_detected ← lift (py_get analysis_result "mask_detected" (JBool false));
      reason ← lift (py_get analysis_result "reason" (JString "No reason provided."));
      (if truthy mask_detected then emit (Col1Success status_mask_detected)
       else emit (Col1Error status_violation));;
      emit (Col2Info ("**AI Reason:** " +:+ format_value W reason));;
      if negb (truthy mask_detected) && alerts_enabled then
        emit (StWarning sending_alerts_warning);;
        let alert_body_whatsapp := whatsapp_heading +:+ format_value W reason in
        send_alert_email W cfg alert_subject reason image_bytes;;
        send_whatsapp_alert W cfg alert_body_whatsapp
      else mret tt
    else mret tt.

(** The body of [if source_img:] (lines 158-202): [source_img] is the
    uploaded or captured file, [button] whether "Analyze Image" was pressed. *)
Definition analysis_and_display (W : World) (cfg : Secrets) (alerts_enabled : bool)
    (source_img : option bytes) (button : bool) : M unit :=
  match source_img with
  | None => mret tt
  | Some buffer =>
      emit (StSubheader "2. Analyze and Get Results");;
      let image_bytes := buffer in
      rgb ← lift (pil_open_rgb W buffer);
      image_np ← alloc rgb;
      bgr ← lift (cv2_cvtColor_RGB2BGR W rgb);
      image_cv ← alloc bgr;
      if button then on_analyze_image W cfg alerts_enabled image_bytes image_cv
      else mret tt
  end.

(** ** Reading a trace *)

(** The two alert sinks. *)
Inductive sink : Type := EmailSink | MessagingSink.

Definition sink_of (e : event) : option sink :=
  match e with
  | Enter (Call_send_alert_email _ _ _) => Some EmailSink
  | Enter (Call_send_whatsapp_alert _) => Some MessagingSink
  | _ => None
  end.

(** The sinks invoked, in the order of their invocation. *)
Definition sinks_invoked (t : list event) : list sink := omap sink_of t.

(** The arguments of each invocation of [send_alert_email]. *)
Definition email_calls (t : list event) : list (string * json * bytes) :=
  omap (fun e => match e with
                 | Enter (Call_send_alert_email s b i) => Some (s, b, i)
                 | _ => None
                 end) t.

(** The argument of each invocation of [send_whatsapp_alert]. *)
Definition whatsapp_calls (t : list event) : list string :=
  omap (fun e => match e with
                 | Enter (Call_send_whatsapp_alert b) => Some b
                 | _ => None
                 end) t.

(** The argument of each invocation of [analyze_image_for_mask]. *)
Definition classifier_calls (t : list event) : list bytes :=
  omap (fun e => match e with
                 | Enter (Call_analyze_image_for_mask b) => Some b
                 | _ => None
                 end) t.

(** The requests sent to the language model, to the mail server and to the
    messaging relay. *)
Definition groq_requests (t : list event) : list chat_request :=
  omap (fun e => match e with GroqRequest _ r => Some r | _ => None end) t.
Definition smtp_requests (t : list event) : list smtp_session :=
  omap (fun e => match e with SmtpRequest s => Some s | _ => None end) t.
Definition twilio_requests (t : list event) : list whatsapp_message :=
  omap (fun e => match e with TwilioRequest m => Some m | _ => None end) t.

(** What the operator is shown. *)
Definition warnings (t : list event) : list string :=
  omap (fun e => match e with StWarning m => Some m | _ => None end) t.
Definition errors (t : list event) : list string :=
  omap (fun e => match e with StError m => Some m | _ => None end) t.
Definition statuses_ok (t : list event) : list string :=
  omap (fun e => match e with Col1Success m => Some m | _ => None end) t.
Definition statuses_violation (t : list event) : list string :=
  omap (fun e => match e with Col1Error m => Some m | _ => None end) t.
Definition reasons_shown (t : list event) : list string :=
  omap (fun e => match e with Col2Info m => Some m | _ => None end) t.

(** [needle in hay] *)
Definition contains (hay needle : string) : bool :=
  match String.index 0 needle hay with
  | Some _ => true
  | None => false
  end.

(** The value, final store and trace of a run. *)
Definition value_of {A} (x : result A * heap * list event) : result A := x.1.1.
Definition heap_of {A} (x : result A * heap * list event) : heap := x.1.2.
Definition trace_of {A} (x : result A * heap * list event) : list event := x.2.

(** ** The page around the pipeline (lines 15-37 and 124-155) *)

(** What the script puts on the page besides the entries of [event]. *)
#[local] Unset Elimination Schemes.
Inductive widget : Type :=
| PageConfig (page_title page_icon layout : string)
| Title (text : string)
| Write (text : string)
| Header (text : string)
| Toggle (label : string) (value : bool) (help : string)
| Info (text : string)
| FileUploader (label : string) (types : list string)
| CameraInput (label : string)
| Expander (label : string) (body : list widget)
| Sidebar (body : list widget)
| Stop.
#[local] Set Elimination Schemes.

(** An entry of the trace of the whole script. *)
Inductive entry : Type :=
| Page (w : widget)
| Script (e : event).

(** One rerun of the script: what [st.secrets[key]] answers, and what the
    operator has set, uploaded, captured and pressed. *)
Record Session : Type :=
  { st_secrets : string -> result string;
    toggle_value : bool;
    uploaded : option bytes;
    camera : option bytes;
    button_pressed : bool }.

(** How the script ends: at its last line, at [st.stop()], or with an
    exception nobody caught. *)
Inductive ending : Type :=
| Finished
| Stopped
| Crashed (e : exn).

Definition and_then {A B} (r : result A) (k : A -> result B) : result B :=
  match r with
  | Ok a => k a
  | Raise e => Raise e
  end.

(** The keys read on lines 24-31, in that order. *)
Definition required_keys : list string :=
  [ "GROQ_API_KEY"; "SENDER_EMAIL"; "EMAIL_PASSWORD"; "RECEIVER_EMAIL";
    "TWILIO_ACCOUNT_SID"; "TWILIO_AUTH_TOKEN"; "TWILIO_WHATSAPP_NUMBER";
    "MY_WHATSAPP_NUMBER" ].

(** The [try] block of lines 24-31. *)
Definition read_secrets (secrets : string -> result string) : result Secrets :=
  and_then (secrets "GROQ_API_KEY") (fun groq_api_key =>
  and_then (secrets "SENDER_EMAIL") (fun sender_email =>
  and_then (secrets "EMAIL_PASSWORD") (fun email_password =>
  and_then (secrets "RECEIVER_EMAIL") (fun receiver_email =>
  and_then (secrets "TWILIO_ACCOUNT_SID") (fun twilio_account_sid =>
  and_then (secrets "TWILIO_AUTH_TOKEN") (fun twilio_auth_token =>
  and_then (secrets "TWILIO_WHATSAPP_NUMBER") (fun twilio_whatsapp_number =>
  and_then (secrets "MY_WHATSAPP_NUMBER") (fun my_whatsapp_number =>
  Ok {| GROQ_API_KEY := groq_api_key;
        SENDER_EMAIL := sender_email;
        EMAIL_PASSWORD := email_password;
        RECEIVER_EMAIL := receiver_email;
        TWILIO_ACCOUNT_SID := twilio_account_sid;
        TWILIO_AUTH_TOKEN := twilio_auth_token;
        TWILIO_WHATSAPP_NUMBER := twilio_whatsapp_number;
        MY_WHATSAPP_NUMBER := my_whatsapp_number |})))))))).

(** [KeyError] is one of the classes [exn_class] leaves unnamed. *)
Definition KeyError : exn_class := OtherException "KeyError".

Definition is_KeyError (e : exn) : bool :=
  match exn_cls e with
  | OtherException name => String.eqb name "KeyError"
  | _ => false
  end.

Definition secrets_file_error : string :=
  "Secrets file not found. Please create a .streamlit/secrets.toml file.".

Definition secret_key_error (e : exn) : string :=
  "Missing a secret key in your secrets.toml file: " +:+ exn_str e.

(** Lines 23-37: the secrets, or what is shown before [st.stop()], or the
    exception neither [except] clause names. *)
Inductive loaded : Type :=
| Loaded (cfg : Secrets)
| Halted (shown : list entry)
| Failed (e : exn).

Definition load_secrets (secrets : string -> result string) : loaded :=
  match read_secrets secrets with
  | Ok cfg => Loaded cfg
  | Raise e =>
      if is_FileNotFoundError e then
        Halted [Script (StError secrets_file_error); Page Stop]
      else if is_KeyError e then
        Halted [Script (StError (secret_key_error e)); Page Stop]
      else Failed e
  end.

Definition page_config : entry :=
  Page (PageConfig "AI Mask Detection & Alert System" "😷" "centered").

Definition how_to_use : string :=
  nl +:+
  "            1. **Upload an image** or **use your camera**." +:+
  nl +:+
  "            2. Click the **Analyze Image** button." +:+
  nl +:+
  "            3. The app will first detect faces using OpenCV." +:+
  nl +:+
  "            4. If a face is found, the image is sent to Meta's Llama 4 model via Groq for mask classification." +:+
  nl +:+
  "            5. If a violation is detected and alerts are enabled, an email and WhatsApp message will be sent." +:+
  nl +:+
  "        ".

(** Lines 124-141: title, and the sidebar with the alerts toggle. *)
Definition page_head : list entry :=
  [ Page (Title "😷 AI Mask Detection & Alert System");
    Page (Write "Powered by Meta Llama 4, Groq, and OpenCV");
    Page (Sidebar
            [ Header "⚙️ Settings";
              Toggle "Enable Email/WhatsApp Alerts" true "Turn this off to disable notifications.";
              Expander "ℹ️ How to Use" [Write how_to_use];
              Expander "🔑 Required Secrets"
                [Info "Make sure you have a `.streamlit/secrets.toml` file with all the necessary API keys and credentials."] ]) ].

(** Lines 145-154: the uploaded file if there is one; the camera is shown
    and read only when there is none. *)
Definition image_input (S : Session) : option bytes * list entry :=
  match uploaded S with
  | Some img_file_buffer =>
      (Some img_file_buffer,
       [ Script (StSubheader "1. Provide an Image");
         Page (FileUploader "Upload an image" ["png"; "jpg"; "jpeg"]) ])
  | None =>
      (camera S,
       [ Script (StSubheader "1. Provide an Image");
         Page (FileUploader "Upload an image" ["png"; "jpg"; "jpeg"]);
         Page (Info "Or, use the camera input below.");
         Page (CameraInput "Take a picture") ])
  end.

(** One rerun of [app.py], from an empty store. *)
Definition app_py (W : World) (S : Session) : ending * heap * list entry :=
  match load_secrets (st_secrets S) with
  | Halted shown => (Stopped, ∅, page_config :: shown)
  | Failed e => (Crashed e, ∅, [page_config])
  | Loaded cfg =>
      let alerts_enabled := toggle_value S in
      let '(source_img, input) := image_input S in
      let '(r, h, t) :=
        analysis_and_display W cfg alerts_enabled source_img (button_pressed S) ∅ in
      (match r with Ok _ => Finished | Raise e => Crashed e end,
       h,
       page_config :: page_head ++ input ++ map Script t)
  end.

(** The ending, final store and trace of a rerun. *)
Definition ending_of (x : ending * heap * list entry) : ending := x.1.1.
Definition store_of (x : ending * heap * list entry) : heap := x.1.2.
Definition entries_of (x : ending * heap * list entry) : list entry := x.2.

(** The entries of [event] in a trace of the script. *)
Definition script_events (t : list entry) : list event :=
  omap (fun x => match x with Script e => Some e | Page _ => None end) t.

(** The widgets in a trace of the script. *)
Definition widgets (t : list entry) : list widget :=
  omap (fun x => match x with Page w => Some w | Script _ => None end) t.

(** ** Reading a trace, continued *)

(** Every entry of a backend function. *)
Definition backend_calls (t : list event) : list call :=
  omap (fun e => match e with Enter c => Some c | _ => None end) t.

(** The argument of each invocation of [detect_faces]. *)
Definition detector_calls (t : list event) : list loc :=
  omap (fun e => match e with
                 | Enter (Call_detect_faces a) => Some a
                 | _ => None
                 end) t.

Definition toasts (t : list event) : list event :=
  omap (fun e => match e with StToast _ _ => Some e | _ => None end) t.

Definition images_shown (t : list event) : list event :=
  omap (fun e => match e with StImage _ _ _ _ => Some e | _ => None end) t.

(** ** What each backend function may leave in the trace after its entry *)

Inductive detector_trace (image_np : loc) : loc * nat -> list event -> Prop :=
| detector_answered out n :
    detector_trace image_np (out, n) []
| detector_failed msg :
    detector_trace image_np (image_np, 0%nat) [StError msg].

Inductive classifier_trace (W : World) (cfg : Secrets) (image_bytes : bytes)
    : json -> list event -> Prop :=
| classifier_answered choices response_content v :
    Groq W (GROQ_API_KEY cfg) = Ok tt ->
    groq_create W (GROQ_API_KEY cfg) (groq_request W image_bytes) = Ok choices ->
    first_content choices = Ok response_content ->
    loads W response_content = Ok v ->
    classifier_trace W cfg image_bytes v
      [GroqRequest (GROQ_API_KEY cfg) (groq_request W image_bytes)]
| classifier_no_client e :
    Groq W (GROQ_API_KEY cfg) = Raise e ->
    classifier_trace W cfg image_bytes JNull [StError ("Groq API Error: " +:+ exn_str e)]
| classifier_failed e :
    Groq W (GROQ_API_KEY cfg) = Ok tt ->
    classifier_trace W cfg image_bytes JNull
      [GroqRequest (GROQ_API_KEY cfg) (groq_request W image_bytes);
       StError ("Groq API Error: " +:+ exn_str e)].

Inductive email_trace (W : World) (cfg : Secrets) (subject : string) (body : json)
    (image_bytes : bytes) : list event -> Prop :=
| email_not_built e :
    email_trace W cfg subject body image_bytes
      [StError ("Failed to send email: " +:+ exn_str e)]
| email_not_delivered text e :
    body = JString text ->
    smtp_deliver W (alert_session cfg (alert_message cfg subject text image_bytes)) = Raise e ->
    email_trace W cfg subject body image_bytes
      [SmtpRequest (alert_session cfg (alert_message cfg subject text image_bytes));
       StError ("Failed to send email: " +:+ exn_str e)]
| email_delivered text :
    body = JString text ->
    smtp_deliver W (alert_session cfg (alert_message cfg subject text image_bytes)) = Ok tt ->
    email_trace W cfg subject body image_bytes
      [SmtpRequest (alert_session cfg (alert_message cfg subject text image_bytes));
       email_sent_toast].

Inductive whatsapp_trace (W : World) (cfg : Secrets) (body : string) : list event -> Prop :=
| whatsapp_no_client e :
    twilio_Client W (TWILIO_ACCOUNT_SID cfg) (TWILIO_AUTH_TOKEN cfg) = Raise e ->
    whatsapp_trace W cfg body [StError ("Failed to send WhatsApp message: " +:+ exn_str e)]
| whatsapp_not_delivered e :
    twilio_Client W (TWILIO_ACCOUNT_SID cfg) (TWILIO_AUTH_TOKEN cfg) = Ok tt ->
    twilio_create W (whatsapp_alert cfg body) = Raise e ->
    whatsapp_trace W cfg body
      [TwilioRequest (whatsapp_alert cfg body);
       StError ("Failed to send WhatsApp message: " +:+ exn_str e)]
| whatsapp_delivered :
    twilio_Client W (TWILIO_ACCOUNT_SID cfg) (TWILIO_AUTH_TOKEN cfg) = Ok tt ->
    twilio_create W (whatsapp_alert cfg body) = Ok tt ->
    whatsapp_trace W cfg body [TwilioRequest (whatsapp_alert cfg body); whatsapp_sent_toast].

(** ** Sample worlds

    Concrete libraries and services on which the statements below are
    evaluated. *)

Definition sample_pixels : grid := [[(1, 2, 3); (4, 5, 6)]; [(7, 8, 9); (10, 11, 12)]].
Definition sample_image : loc := 1%positive.
Definition sample_heap : heap := {[ sample_image := sample_pixels ]}.
Definition sample_bytes : bytes := [Byte.xff; Byte.xd8; Byte.xff; Byte.xe0].

Definition sample_cfg : Secrets :=
  {| GROQ_API_KEY := "gsk-sample";
     SENDER_EMAIL := "sender@example.org";
     EMAIL_PASSWORD := "app-password";
     RECEIVER_EMAIL := "operator@example.org";
     TWILIO_ACCOUNT_SID := "AC00";
     TWILIO_AUTH_TOKEN := "token";
     TWILIO_WHATSAPP_NUMBER := "+14155238886";
     MY_WHATSAPP_NUMBER := "+15550100" |}.

Definition two_faces : list facebox :=
  [ {| fx := 0; fy := 0; fw := 1; fh := 1 |}; {| fx := 1; fy := 1; fw := 1; fh := 1 |} ].

(** Response texts of the model. *)
Definition violation_text : string :=
  "{" +:+ dq +:+ "mask_detected" +:+ dq +:+ ": false, " +:+ dq +:+ "reason" +:+ dq +:+ ": "
  +:+ dq +:+ "visible nose and mouth" +:+ dq +:+ "}".
Definition no_indicator_text : string :=
  "{" +:+ dq +:+ "reason" +:+ dq +:+ ": " +:+ dq +:+ "unclear" +:+ dq +:+ "}".
Definition no_reason_text : string :=
  "{" +:+ dq +:+ "mask_detected" +:+ dq +:+ ": false}".

Definition violation_verdict : json :=
  JObject [("mask_detected", JBool false); ("reason", JString "visible nose and mouth")].
Definition no_indicator_verdict : json := JObject [("reason", JString "unclear")].
Definition no_reason_verdict : json := JObject [("mask_detected", JBool false)].

(** A parser that knows the sample texts and rejects everything else. *)
Definition sample_json_loads (s : string) : result json :=
  if String.eqb s violation_text then Ok violation_verdict
  else if String.eqb s no_indicator_text then Ok no_indicator_verdict
  else if String.eqb s no_reason_text then Ok no_reason_verdict
  else if String.eqb s "{}" then Ok (JObject [])
  else Raise {| exn_cls := OtherException "JSONDecodeError";
                exn_str := "Expecting value: line 1 column 1 (char 0)" |}.

(** A world whose detector answers [detection], whose model answers
    [reply], and whose mail server and messaging relay answer [smtp] and
    [twilio]. *)
Definition sample_world (detection : result (list facebox))
    (reply : result (list (option string))) (smtp twilio : result unit) : World :=
  {| cv2_CascadeClassifier := fun file => Ok {| cascade_file := file |};
     cv2_cvtColor_BGR2GRAY := fun g => Ok (map (map (fun '(b, g, r) => g)) g);
     cv2_cvtColor_RGB2BGR := fun g => Ok (map (map (fun '(r, g, b) => (b, g, r))) g);
     detectMultiScale := fun _ _ _ _ _ => detection;
     cv2_rectangle := fun g _ _ color _ => Ok (map (map (fun _ => color)) g);
     pil_open_rgb := fun _ => Ok sample_pixels;
     b64encode := fun _ => "/9j/4A==";
     Groq := fun _ => Ok tt;
     groq_create := fun _ _ => reply;
     json_loads := sample_json_loads;
     str_of_value := fun _ => "None";
     MIMEText_str := fun _ => Ok tt;
     MIMEImage := fun _ _ => Ok tt;
     smtp_deliver := fun _ => smtp;
     twilio_Client := fun _ _ => Ok tt;
     twilio_create := fun _ => twilio |}.

Definition network_down : exn :=
  {| exn_cls := OtherException "ConnectionError"; exn_str := "Connection error." |}.

(** A world in which the cascade file cannot be loaded. *)
Definition world_without_cascade : World :=
  {| cv2_CascadeClassifier := fun file =>
       Raise {| exn_cls := FileNotFoundError; exn_str := file |};
     cv2_cvtColor_BGR2GRAY := fun g => Ok (map (map (fun '(b, g, r) => g)) g);
     cv2_cvtColor_RGB2BGR := fun g => Ok (map (map (fun '(r, g, b) => (b, g, r))) g);
     detectMultiScale := fun _ _ _ _ _ => Ok two_faces;
     cv2_rectangle := fun g _ _ color _ => Ok (map (map (fun _ => color)) g);
     pil_open_rgb := fun _ => Ok sample_pixels;
     b64encode := fun _ => "/9j/4A==";
     Groq := fun _ => Ok tt;
     groq_create := fun _ _ => Ok [Some violation_text];
     json_loads := sample_json_loads;
     str_of_value := fun _ => "None";
     MIMEText_str := fun _ => Ok tt;
     MIMEImage := fun _ _ => Ok tt;
     smtp_deliver := fun _ => Ok tt;
     twilio_Client := fun _ _ => Ok tt;
     twilio_create := fun _ => Ok tt |}.

Definition world_no_faces : World :=
  sample_world (Ok []) (Ok [Some violation_text]) (Ok tt) (Ok tt).
Definition world_violation : World :=
  sample_world (Ok two_faces) (Ok [Some violation_text]) (Ok tt) (Ok tt).
(** The mail server is unreachable, the messaging relay answers. *)
Definition world_mail_down : World :=
  sample_world (Ok two_faces) (Ok [Some violation_text]) (Raise network_down) (Ok tt).
Definition world_model_down : World :=
  sample_world (Ok two_faces) (Raise network_down) (Ok tt) (Ok tt).
Definition world_no_reason : World :=
  sample_world (Ok two_faces) (Ok [Some no_reason_text]) (Ok tt) (Ok tt).
Definition world_no_indicator : World :=
  sample_world (Ok two_faces) (Ok [Some no_indicator_text]) (Ok tt) (Ok tt).

(** ** Sample sessions *)

(** A world that differs from [W] in what [json.loads] answers. *)
Definition with_json_loads (W : World) (parse : string -> result json) : World :=
  {| cv2_CascadeClassifier := cv2_CascadeClassifier W;
     cv2_cvtColor_BGR2GRAY := cv2_cvtColor_BGR2GRAY W;
     cv2_cvtColor_RGB2BGR := cv2_cvtColor_RGB2BGR W;
     detectMultiScale := detectMultiScale W;
     cv2_rectangle := cv2_rectangle W;
     pil_open_rgb := pil_open_rgb W;
     b64encode := b64encode W;
     Groq := Groq W;
     groq_create := groq_create W;
     json_loads := parse;
     str_of_value := str_of_value W;
     MIMEText_str := MIMEText_str W;
     MIMEImage := MIMEImage W;
     smtp_deliver := smtp_deliver W;
     twilio_Client := twilio_Client W;
     twilio_create := twilio_create W |}.

(** The sample world with a model whose answer parses to [v]. *)
Definition world_answering (v : json) : World :=
  with_json_loads world_violation (fun _ => Ok v).

(** A world that differs from [W] in what [cv2.rectangle] answers. *)
Definition with_rectangle (W : World)
    (draw : grid -> Z * Z -> Z * Z -> pixel -> Z -> result grid) : World :=
  {| cv2_CascadeClassifier := cv2_CascadeClassifier W;
     cv2_cvtColor_BGR2GRAY := cv2_cvtColor_BGR2GRAY W;
     cv2_cvtColor_RGB2BGR := cv2_cvtColor_RGB2BGR W;
     detectMultiScale := detectMultiScale W;
     cv2_rectangle := draw;
     pil_open_rgb := pil_open_rgb W;
     b64encode := b64encode W;
     Groq := Groq W;
     groq_create := groq_create W;
     json_loads := json_loads W;
     str_of_value := str_of_value W;
     MIMEText_str := MIMEText_str W;
     MIMEImage := MIMEImage W;
     smtp_deliver := smtp_deliver W;
     twilio_Client := twilio_Client W;
     twilio_create := twilio_create W |}.

(** A world that differs from [W] in what [Image.open] answers. *)
Definition with_pil_open (W : World) (open : bytes -> result grid) : World :=
  {| cv2_CascadeClassifier := cv2_CascadeClassifier W;
     cv2_cvtColor_BGR2GRAY := cv2_cvtColor_BGR2GRAY W;
     cv2_cvtColor_RGB2BGR := cv2_cvtColor_RGB2BGR W;
     detectMultiScale := detectMultiScale W;
     cv2_rectangle := cv2_rectangle W;
     pil_open_rgb := open;
     b64encode := b64encode W;
     Groq := Groq W;
     groq_create := groq_create W;
     json_loads := json_loads W;
     str_of_value := str_of_value W;
     MIMEText_str := MIMEText_str W;
     MIMEImage := MIMEImage W;
     smtp_deliver := smtp_deliver W;
     twilio_Client := twilio_Client W;
     twilio_create := twilio_create W |}.

(** [st.secrets] over a secrets file, or over none. *)
Definition secrets_of (file : option (gmap string string)) (key : string) : result string :=
  match file with
  | None =>
      Raise {| exn_cls := FileNotFoundError; exn_str := "No secrets files found." |}
  | Some table =>
      match table !! key with
      | Some v => Ok v
      | None => Raise {| exn_cls := KeyError; exn_str := sq +:+ key +:+ sq |}
      end
  end.

Definition sample_secrets : gmap string string :=
  list_to_map
    [ ("GROQ_API_KEY", "gsk-sample");
      ("SENDER_EMAIL", "sender@example.org");
      ("EMAIL_PASSWORD", "app-password");
      ("RECEIVER_EMAIL", "operator@example.org");
      ("TWILIO_ACCOUNT_SID", "AC00");
      ("TWILIO_AUTH_TOKEN", "token");
      ("TWILIO_WHATSAPP_NUMBER", "+14155238886");
      ("MY_WHATSAPP_NUMBER", "+15550100") ].

Definition camera_bytes : bytes := [Byte.x89; Byte.x50; Byte.x4e; Byte.x47].

Definition sample_session (file : option (gmap string string)) (alerts : bool)
    (upload picture : option bytes) (pressed : bool) : Session :=
  {| st_secrets := secrets_of file;
     toggle_value := alerts;
     uploaded := upload;
     camera := picture;
     button_pressed := pressed |}.

(** A world that differs from [W] in what [str] answers. *)
Definition with_str_of_value (W : World) (str : json -> string) : World :=
  {| cv2_CascadeClassifier := cv2_CascadeClassifier W;
     cv2_cvtColor_BGR2GRAY := cv2_cvtColor_BGR2GRAY W;
     cv2_cvtColor_RGB2BGR := cv2_cvtColor_RGB2BGR W;
     detectMultiScale := detectMultiScale W;
     cv2_rectangle := cv2_rectangle W;
     pil_open_rgb := pil_open_rgb W;
     b64encode := b64encode W;
     Groq := Groq W;
     groq_create := groq_create W;
     json_loads := json_loads W;
     str_of_value := str;
     MIMEText_str := MIMEText_str W;
     MIMEImage := MIMEImage W;
     smtp_deliver := smtp_deliver W;
     twilio_Client := twilio_Client W;
     twilio_create := twilio_create W |}.

(** [str] on the values the samples use. *)
Definition sample_str (v : json) : string :=
  match v with
  | JNull => "None"
  | JBool true => "True"
  | JBool false => "False"
  | JInt n => pretty n
  | _ => "..."
  end.

(** The model says the mask is worn, in a string. *)
Definition world_indicator_as_text : World :=
  world_answering (JObject [("mask_detected", JString "false")]).
(** The model answers the empty object. *)
Definition world_empty_verdict : World := world_answering (JObject []).
(** The model answers an array. *)
Definition world_array_verdict : World := world_answering (JArray [JInt 1]).
(** The model gives a number as its reason. *)
Definition number_reason_verdict : list (string * json) :=
  [("mask_detected", JBool false); ("reason", JInt 5)].
Definition world_number_reason : World :=
  with_str_of_value (world_answering (JObject number_reason_verdict)) sample_str.
(** The model returns no choice. *)
Definition world_no_choice : World :=
  sample_world (Ok two_faces) (Ok []) (Ok tt) (Ok tt).
(** Drawing fails. *)
Definition cannot_draw : exn :=
  {| exn_cls := OtherException "cv2.error"; exn_str := "Bad argument" |}.
Definition world_cannot_draw : World :=
  with_rectangle world_violation (fun _ _ _ _ _ => Raise cannot_draw).
(** The upload is no image. *)
Definition cannot_identify : exn :=
  {| exn_cls := OtherException "UnidentifiedImageError";
     exn_str := "cannot identify image file" |}.
Definition world_cannot_decode : World :=
  with_pil_open world_violation (fun _ => Raise cannot_identify).

Definition red_pixels : grid :=
  [[(255, 0, 0); (255, 0, 0)]; [(255, 0, 0); (255, 0, 0)]].
Definition sample_bgr : grid := [[(3, 2, 1); (6, 5, 4)]; [(9, 8, 7); (12, 11, 10)]].

(** A secrets file without the mail password. *)
Definition secrets_without_password : gmap string string :=
  delete "EMAIL_PASSWORD" sample_secrets.

(** ** Lemmas *)

Arguments detect_faces : simpl never.
Arguments analyze_image_for_mask : simpl never.
Arguments send_alert_email : simpl never.
Arguments send_whatsapp_alert : simpl never.

Lemma run_bind {A B} (m : M A) (k : A -> M B) (h : heap) :
  (m ≫= k) h =
  match m h with
  | (Ok a, h1, t1) => match k a h1 with (r, h2, t2) => (r, h2, t1 ++ t2) end
  | (Raise e, h1, t1) => (Raise e, h1, t1)
  end.
Proof. reflexivity. Qed.

Lemma run_emit (e : event) (h : heap) : emit e h = (Ok tt, h, [e]).
Proof. reflexivity. Qed.

Lemma run_lift {A} (r : result A) (h : heap) : lift r h = (r, h, []).
Proof. reflexivity. Qed.

Lemma run_ret {A} (a : A) (h : heap) : (mret a : M A) h = (Ok a, h, []).
Proof. reflexivity. Qed.

Lemma run_try {A} (body : M A) (handler : exn -> M A) (h : heap) :
  try_except body handler h =
  match body h with
  | (Ok a, h1, t1) => (Ok a, h1, t1)
  | (Raise e, h1, t1) => match handler e h1 with (r, h2, t2) => (r, h2, t1 ++ t2) end
  end.
Proof. reflexivity. Qed.

(** Evaluation of the monad's combinators, leaving the calls of backend
    functions and of the world in place. *)
Ltac run :=
  cbv [mbind M_bind bind emit lift try_except mret M_ret ret raise];
  cbn [app]; rewrite ?app_nil_r.

(** *** The alert sinks *)

Lemma send_alert_email_run W cfg subject body image_bytes :
  exists t,
    email_trace W cfg subject body image_bytes t /\
    forall h, send_alert_email W cfg subject body image_bytes h =
              (Ok tt, h, Enter (Call_send_alert_email subject body image_bytes) :: t).
Proof.
  unfold send_alert_email.
  destruct (MIMEText W body) as [text|e] eqn:Etext.
  - assert (body = JString text) as Hbody.
    { destruct body; simpl in Etext; try discriminate.
      destruct (MIMEText_str W s); congruence. }
    destruct (MIMEImage W image_bytes "violation_capture.jpg") as [[]|e] eqn:Eimg.
    + destruct (smtp_deliver W (alert_session cfg (alert_message cfg subject text image_bytes)))
        as [[]|e] eqn:Esmtp.
      * eexists; split; [eapply email_delivered; eassumption|].
        intros h. run. rewrite ?Esmtp. reflexivity.
      * eexists; split; [eapply email_not_delivered; eassumption|].
        intros h. run. rewrite ?Esmtp. reflexivity.
    + eexists; split; [eapply email_not_built|].
      intros h. reflexivity.
  - eexists; split; [eapply email_not_built|].
    intros h. reflexivity.
Qed.

Lemma send_whatsapp_alert_run W cfg body :
  exists t,
    whatsapp_trace W cfg body t /\
    forall h, send_whatsapp_alert W cfg body h =
              (Ok tt, h, Enter (Call_send_whatsapp_alert body) :: t).
Proof.
  unfold send_whatsapp_alert.
  destruct (twilio_Client W (TWILIO_ACCOUNT_SID cfg) (TWILIO_AUTH_TOKEN cfg)) as [[]|e] eqn:Ec.
  - destruct (twilio_create W (whatsapp_alert cfg body)) as [[]|e] eqn:Em.
    + eexists; split; [eapply whatsapp_delivered; eassumption|].
      intros h. run. rewrite ?Em. reflexivity.
    + eexists; split; [eapply whatsapp_not_delivered; eassumption|].
      intros h. run. rewrite ?Em. reflexivity.
  - eexists; split; [eapply whatsapp_no_client; eassumption|].
    intros h. reflexivity.
Qed.

(** *** The classifier *)

Lemma analyze_image_for_mask_run W cfg image_bytes :
  exists v t,
    classifier_trace W cfg image_bytes v t /\
    forall h, analyze_image_for_mask W cfg image_bytes h =
              (Ok v, h, Enter (Call_analyze_image_for_mask image_bytes) :: t).
Proof.
  unfold analyze_image_for_mask, analyze_image_for_mask_try.
  destruct (Groq W (GROQ_API_KEY cfg)) as [[]|e] eqn:Eclient.
  2: { eexists _, _; split; [eapply classifier_no_client; eassumption|]. intros h. reflexivity. }
  destruct (groq_create W (GROQ_API_KEY cfg) (groq_request W image_bytes))
    as [choices|e] eqn:Ecreate.
  2: { eexists _, _; split; [eapply classifier_failed; eassumption|].
       intros h. run. fold (groq_request W image_bytes). rewrite Ecreate. reflexivity. }
  destruct (first_content choices) as [response_content|e] eqn:Efirst.
  2: { eexists _, _; split; [eapply classifier_failed; eassumption|].
       intros h. run. fold (groq_request W image_bytes). rewrite Ecreate, Efirst.
       reflexivity. }
  destruct (loads W response_content) as [v|e] eqn:Eloads.
  - eexists _, _; split; [eapply classifier_answered; eassumption|].
    intros h. run. fold (groq_request W image_bytes). rewrite Ecreate, Efirst, Eloads.
    reflexivity.
  - eexists _, _; split; [eapply classifier_failed; eassumption|].
    intros h. run. fold (groq_request W image_bytes). rewrite Ecreate, Efirst, Eloads.
    reflexivity.
Qed.

(** The classifier reads and writes no array: its value does not depend on
    the store. *)
Lemma analyze_image_for_mask_store W cfg image_bytes h h' :
  value_of (analyze_image_for_mask W cfg image_bytes h) =
  value_of (analyze_image_for_mask W cfg image_bytes h').
Proof.
  destruct (analyze_image_for_mask_run W cfg image_bytes) as (v & t & _ & E).
  now rewrite !E.
Qed.

(** A response that parses is returned as it is. *)
Lemma analyze_image_for_mask_parsed W cfg image_bytes s rest v h :
  Groq W (GROQ_API_KEY cfg) = Ok tt ->
  groq_create W (GROQ_API_KEY cfg) (groq_request W image_bytes) = Ok (Some s :: rest) ->
  json_loads W s = Ok v ->
  analyze_image_for_mask W cfg image_bytes h =
  (Ok v, h, [Enter (Call_analyze_image_for_mask image_bytes);
             GroqRequest (GROQ_API_KEY cfg) (groq_request W image_bytes)]).
Proof.
  intros Eclient Ecreate Eloads.
  unfold analyze_image_for_mask, analyze_image_for_mask_try. run.
  fold (groq_request W image_bytes).
  rewrite Eclient, Ecreate. cbn [first_content loads]. rewrite Eloads. reflexivity.
Qed.

(** Whatever the [try] block raises is reported, and [None] is returned. *)
Lemma analyze_image_for_mask_caught W cfg image_bytes h e :
  value_of (analyze_image_for_mask_try W cfg image_bytes h) = Raise e ->
  exists t,
    analyze_image_for_mask W cfg image_bytes h =
    (Ok JNull, h, Enter (Call_analyze_image_for_mask image_bytes) :: t) /\
    errors t = ["Groq API Error: " +:+ exn_str e].
Proof.
  unfold analyze_image_for_mask, analyze_image_for_mask_try. run.
  destruct (Groq W (GROQ_API_KEY cfg)) as [[]|e1]; cbn.
  2: { intros [= ->]. eexists; split; reflexivity. }
  destruct (groq_create W _ _) as [choices|e1]; cbn.
  2: { intros [= ->]. eexists; split; reflexivity. }
  destruct (first_content choices) as [response_content|e1]; cbn.
  2: { intros [= ->]. eexists; split; reflexivity. }
  destruct (loads W response_content) as [v|e1]; cbn.
  - discriminate.
  - intros [= ->]. eexists; split; reflexivity.
Qed.

(** *** The face locator *)

Lemma draw_boxes_run W l faces :
  forall (h : heap) (g : grid),
    h !! l = Some g ->
    exists r h',
      draw_boxes W l faces h = (r, h', []) /\
      (forall a, a <> l -> h' !! a = h !! a) /\
      match boxes_drawn W g faces with
      | Ok g' => r = Ok tt /\ h' !! l = Some g'
      | Raise e => r = Raise e
      end.
Proof.
  induction faces as [|b rest IH]; intros h g Hl.
  - exists (Ok tt), h. cbn. auto.
  - cbn [draw_boxes boxes_drawn]. unfold draw_box, deref, store. run. rewrite Hl.
    destruct (cv2_rectangle W g _ _ _ _) as [g'|e].
    + destruct (IH (<[l := g']> h) g') as (r & h' & E & Hframe & Hres).
      { apply lookup_insert_eq. }
      exists r, h'. rewrite E. split; [reflexivity|]. split; [|exact Hres].
      intros a Ha. rewrite Hframe by exact Ha. apply lookup_insert_ne. congruence.
    + exists (Raise e), h. auto.
Qed.

Lemma detect_faces_try_run W image_np h :
  exists r h',
    detect_faces_try W image_np h = (r, h', []) /\
    (forall a, (a ∈ dom h) -> h' !! a = h !! a) /\
    match r with
    | Ok (out, n) =>
        (out ∉ dom h) /\
        exists face_cascade pixels gray faces drawn,
          cv2_CascadeClassifier W "haarcascade_frontalface_default.xml" = Ok face_cascade /\
          h !! image_np = Some pixels /\
          cv2_cvtColor_BGR2GRAY W pixels = Ok gray /\
          detectMultiScale W face_cascade gray scaleFactor 5 (30, 30) = Ok faces /\
          n = length faces /\
          boxes_drawn W pixels faces = Ok drawn /\
          h' !! out = Some drawn
    | Raise _ => True
    end.
Proof.
  unfold detect_faces_try, np_copy, deref, alloc. run.
  destruct (cv2_CascadeClassifier W _) as [face_cascade|e] eqn:Ec.
  2: { exists (Raise e), h. auto. }
  destruct (h !! image_np) as [pixels|] eqn:Hpix.
  2: { eexists (Raise _), h. auto. }
  destruct (cv2_cvtColor_BGR2GRAY W pixels) as [gray|e] eqn:Eg.
  2: { exists (Raise e), h. auto. }
  destruct (detectMultiScale W face_cascade gray scaleFactor 5 (30, 30)) as [faces|e] eqn:Ed.
  2: { exists (Raise e), h. auto. }
  run. rewrite Hpix. run.
  set (out := fresh (dom h)).
  assert (Hfresh : out ∉ dom h) by apply is_fresh.
  destruct (draw_boxes_run W out faces (<[out := pixels]> h) pixels) as (r & h' & E & Hframe & Hres).
  { apply lookup_insert_eq. }
  rewrite E.
  assert (Hold : forall a, (a ∈ dom h) -> h' !! a = h !! a).
  { intros a Ha. rewrite Hframe by (intros ->; contradiction).
    apply lookup_insert_ne. intros ->. contradiction. }
  destruct (boxes_drawn W pixels faces) as [drawn|e] eqn:Eb.
  - destruct Hres as [-> Hout]. eexists (Ok (out, length faces)), h'.
    split; [reflexivity|]. split; [exact Hold|]. split; [exact Hfresh|].
    exists face_cascade, pixels, gray, faces, drawn. auto 10.
  - subst r. exists (Raise e), h'. auto.
Qed.

Lemma detect_faces_run W image_np h :
  exists out n h' t,
    detect_faces W image_np h = (Ok (out, n), h', Enter (Call_detect_faces image_np) :: t) /\
    detector_trace image_np (out, n) t /\
    (forall a, (a ∈ dom h) -> h' !! a = h !! a).
Proof.
  destruct (detect_faces_try_run W image_np h) as (r & h' & E & Hframe & _).
  unfold detect_faces. run. rewrite E.
  destruct r as [[out n]|e].
  - exists out, n, h', []. split; [reflexivity|]. split; [constructor|exact Hframe].
  - unfold detect_faces_except. destruct (is_FileNotFoundError e); run;
      eexists _, _, h', _; (split; [reflexivity|]); (split; [constructor|exact Hframe]).
Qed.

(** Whatever the [try] block raises is reported, and the input array is
    returned with a count of zero. *)
Lemma detect_faces_caught W image_np h e :
  value_of (detect_faces_try W image_np h) = Raise e ->
  exists h',
    detect_faces W image_np h =
    (Ok (image_np, 0%nat), h',
     [Enter (Call_detect_faces image_np);
      StError (if is_FileNotFoundError e
               then "haarcascade_frontalface_default.xml not found. Please download it."
               else "Face detection error: " +:+ exn_str e)]).
Proof.
  destruct (detect_faces_try_run W image_np h) as (r & h' & E & _ & _).
  rewrite E. cbn. intros ->.
  exists h'. unfold detect_faces. run. rewrite E.
  unfold detect_faces_except. destruct (is_FileNotFoundError e); reflexivity.
Qed.

(** *** The pipeline *)

(** One step of the evaluation of [on_analyze_image]: the combinators are
    computed, and each backend function is replaced by its run. *)
Ltac pipeline_step :=
  first
    [ progress run
    | match goal with
      | E : detect_faces ?W ?i ?h = _ |- context [detect_faces ?W ?i ?h] => rewrite E
      | E : forall h, analyze_image_for_mask ?W ?c ?b h = _
        |- context [analyze_image_for_mask ?W ?c ?b _] => rewrite E
      | |- context [send_alert_email ?W ?c ?s ?b ?i _] =>
          let t := fresh "te" in
          let T := fresh "Te" in
          let E := fresh "Ee" in
          destruct (send_alert_email_run W c s b i) as (t & T & E); rewrite E
      | |- context [send_whatsapp_alert ?W ?c ?b _] =>
          let t := fresh "tw" in
          let T := fresh "Tw" in
          let E := fresh "Ew" in
          destruct (send_whatsapp_alert_run W c b) as (t & T & E); rewrite E
      | H : dict_lookup ?m ?k = _ |- context [dict_lookup ?m ?k] => rewrite H
      | H : truthy ?v = _ |- context [truthy ?v] => rewrite H
      end
    | progress cbn [py_get Nat.eqb negb andb truthy]
    | progress unfold dict_get ].

Ltac pipeline := unfold on_analyze_image, st_image; repeat pipeline_step.

(** The runs of the detector and of the classifier inside a run of the
    pipeline. *)
Ltac components W cfg image_bytes image_cv h :=
  let out := fresh "out" in
  let n := fresh "n" in
  let h1 := fresh "h1" in
  let td := fresh "td" in
  let v := fresh "v" in
  let tc := fresh "tc" in
  destruct (detect_faces_run W image_cv h) as (out & n & h1 & td & Ed & Td & Hframe);
  destruct (analyze_image_for_mask_run W cfg image_bytes) as (v & tc & Tc & Ec).

(** The projections of a trace, computed on a trace that is given entry
    by entry. *)
Ltac read_trace :=
  cbn [value_of heap_of trace_of fst snd
       sinks_invoked sink_of email_calls whatsapp_calls classifier_calls
       groq_requests smtp_requests twilio_requests warnings errors
       statuses_ok statuses_violation reasons_shown
       omap list_omap app email_sent_toast whatsapp_sent_toast].

Lemma truthy_verdict members key v :
  dict_lookup members key = Some v -> truthy (JObject members) = true.
Proof. destruct members; [discriminate|reflexivity]. Qed.

(** C3: with at least one detected face, a verdict whose indicator is
    [false] and alerts enabled, [send_alert_email] and then
    [send_whatsapp_alert] are each entered exactly once and the run ends
    without an exception, whatever the mail server and the messaging relay
    answer; the request to the relay is issued even when the email sink
    failed, as soon as the relay's client can be built. *)
Theorem violation_invokes_both_sinks_once
    W cfg image_bytes image_cv h out n members :
  value_of (detect_faces W image_cv h) = Ok (out, n) ->
  n <> 0%nat ->
  value_of (analyze_image_for_mask W cfg image_bytes h) = Ok (JObject members) ->
  dict_lookup members "mask_detected" = Some (JBool false) ->
  let r := on_analyze_image W cfg true image_bytes image_cv h in
  let reason := dict_get members "reason" (JString "No reason provided.") in
  value_of r = Ok tt /\
  sinks_invoked (trace_of r) = [EmailSink; MessagingSink] /\
  email_calls (trace_of r) = [(alert_subject, reason, image_bytes)] /\
  whatsapp_calls (trace_of r) = [whatsapp_heading +:+ format_value W reason] /\
  (twilio_Client W (TWILIO_ACCOUNT_SID cfg) (TWILIO_AUTH_TOKEN cfg) = Ok tt ->
   twilio_requests (trace_of r) =
     [whatsapp_alert cfg (whatsapp_heading +:+ format_value W reason)]).
Proof.
  intros Hd Hn Ha Hmask r reason. subst r reason.
  components W cfg image_bytes image_cv h.
  rewrite Ed in Hd. rewrite Ec in Ha. cbn in Hd, Ha.
  injection Hd as -> ->. injection Ha as ->.
  pose proof (truthy_verdict _ _ _ Hmask) as Htruthy.
  destruct n as [|n]; [contradiction|].
  pipeline.
  inversion Td; subst; inversion Tc; subst; destruct Te; destruct Tw;
    read_trace; repeat split; try reflexivity; congruence.
Qed.

(** C2: when the face detector reports zero faces, the run ends after the
    "no faces" warning and the display of the detection result:
    [analyze_image_for_mask] is not entered, no request goes to the model,
    and neither sink is entered. *)
Theorem no_faces_no_classifier_no_alert
    W cfg alerts_enabled image_bytes image_cv h out :
  value_of (detect_faces W image_cv h) = Ok (out, 0%nat) ->
  let r := on_analyze_image W cfg alerts_enabled image_bytes image_cv h in
  value_of r = Ok tt /\
  classifier_calls (trace_of r) = [] /\
  groq_requests (trace_of r) = [] /\
  sinks_invoked (trace_of r) = [] /\
  smtp_requests (trace_of r) = [] /\
  twilio_requests (trace_of r) = [] /\
  warnings (trace_of r) = [no_faces_warning] /\
  statuses_ok (trace_of r) = [] /\
  statuses_violation (trace_of r) = [] /\
  last (trace_of r) = Some (StImage out (heap_of r !! out) "Face Detection Result" "BGR").
Proof.
  intros Hd r. subst r.
  components W cfg image_bytes image_cv h.
  rewrite Ed in Hd. cbn in Hd. injection Hd as -> ->.
  pipeline.
  inversion Td; subst; read_trace; repeat split; reflexivity.
Qed.

(** C5: with at least one detected face, a verdict whose indicator is
    [false] and alerts disabled, neither sink is entered and no request
    leaves for the mail server or the relay, yet the operator is shown the
    violation status and not the mask-detected status. *)
Theorem disabled_alerts_still_report_violation
    W cfg image_bytes image_cv h out n members :
  value_of (detect_faces W image_cv h) = Ok (out, n) ->
  n <> 0%nat ->
  value_of (analyze_image_for_mask W cfg image_bytes h) = Ok (JObject members) ->
  dict_lookup members "mask_detected" = Some (JBool false) ->
  let r := on_analyze_image W cfg false image_bytes image_cv h in
  value_of r = Ok tt /\
  sinks_invoked (trace_of r) = [] /\
  smtp_requests (trace_of r) = [] /\
  twilio_requests (trace_of r) = [] /\
  statuses_violation (trace_of r) = [status_violation] /\
  statuses_ok (trace_of r) = [] /\
  warnings (trace_of r) = [].
Proof.
  intros Hd Hn Ha Hmask r. subst r.
  components W cfg image_bytes image_cv h.
  rewrite Ed in Hd. rewrite Ec in Ha. cbn in Hd, Ha.
  injection Hd as -> ->. injection Ha as ->.
  pose proof (truthy_verdict _ _ _ Hmask) as Htruthy.
  destruct n as [|n]; [contradiction|].
  pipeline.
  inversion Td; subst; inversion Tc; subst;
    read_trace; repeat split; reflexivity.
Qed.

(** C6: detected faces, the verdict
    [{"mask_detected": false, "reason": "visible nose and mouth"}] and
    alerts enabled: each sink is entered once; the email carries the
    subject "ALERT: Face Mask Violation Detected!" and the reason as its
    body, the WhatsApp body names the violation and ends with the reason;
    the operator is told that alerts are being sent. *)
Theorem scenario_violation_alerts_sent
    W cfg image_bytes image_cv h out n :
  value_of (detect_faces W image_cv h) = Ok (out, n) ->
  n <> 0%nat ->
  value_of (analyze_image_for_mask W cfg image_bytes h) = Ok violation_verdict ->
  let r := on_analyze_image W cfg true image_bytes image_cv h in
  let reason := "visible nose and mouth" in
  value_of r = Ok tt /\
  sinks_invoked (trace_of r) = [EmailSink; MessagingSink] /\
  email_calls (trace_of r) = [(alert_subject, JString reason, image_bytes)] /\
  whatsapp_calls (trace_of r) = [whatsapp_heading +:+ reason] /\
  contains alert_subject "Mask Violation" = true /\
  contains (whatsapp_heading +:+ reason) "Mask Violation" = true /\
  contains (whatsapp_heading +:+ reason) reason = true /\
  Forall (fun s => msg_Subject (smtp_message s) = alert_subject /\
                   msg_text (smtp_message s) = reason)
         (smtp_requests (trace_of r)) /\
  Forall (fun m => wa_body m = whatsapp_heading +:+ reason)
         (twilio_requests (trace_of r)) /\
  statuses_violation (trace_of r) = [status_violation] /\
  warnings (trace_of r) = [sending_alerts_warning].
Proof.
  intros Hd Hn Ha r reason. subst r reason.
  components W cfg image_bytes image_cv h.
  rewrite Ed in Hd. rewrite Ec in Ha. cbn in Hd, Ha.
  injection Hd as -> ->. injection Ha as ->.
  destruct n as [|n]; [contradiction|].
  unfold violation_verdict in *.
  pipeline. cbn [dict_lookup String.eqb Ascii.eqb Bool.eqb] in *.
  pipeline. cbn [format_value] in *.
  inversion Td; subst; inversion Tc; subst; destruct Te as [?|? ? [= <-] ?|? [= <-] ?];
    destruct Tw; read_trace;
    repeat split; try reflexivity; repeat constructor.
Qed.

(** C10: when the verdict has no "reason" key, the run does not fail, and
    the reason shown to the operator, passed to [send_alert_email] as body,
    put in the mail, and appended to the WhatsApp body is the literal
    "No reason provided." wherever a reason is used. *)
Theorem missing_reason_defaults
    W cfg alerts_enabled image_bytes image_cv h out n members :
  value_of (detect_faces W image_cv h) = Ok (out, n) ->
  n <> 0%nat ->
  value_of (analyze_image_for_mask W cfg image_bytes h) = Ok (JObject members) ->
  dict_lookup members "reason" = None ->
  let r := on_analyze_image W cfg alerts_enabled image_bytes image_cv h in
  let shown := truthy (JObject members) in
  let dispatched :=
    shown && negb (truthy (dict_get members "mask_detected" (JBool false)))
          && alerts_enabled in
  value_of r = Ok tt /\
  reasons_shown (trace_of r) =
    (if shown then ["**AI Reason:** No reason provided."] else []) /\
  email_calls (trace_of r) =
    (if dispatched then [(alert_subject, JString "No reason provided.", image_bytes)]
     else []) /\
  whatsapp_calls (trace_of r) =
    (if dispatched then [whatsapp_heading +:+ "No reason provided."] else []) /\
  Forall (fun s => msg_text (smtp_message s) = "No reason provided.")
         (smtp_requests (trace_of r)) /\
  Forall (fun m => wa_body m = whatsapp_heading +:+ "No reason provided.")
         (twilio_requests (trace_of r)).
Proof.
  intros Hd Hn Ha Hreason r shown dispatched. subst r shown dispatched.
  components W cfg image_bytes image_cv h.
  rewrite Ed in Hd. rewrite Ec in Ha. cbn in Hd, Ha.
  injection Hd as -> ->. injection Ha as ->.
  destruct n as [|n]; [contradiction|].
  destruct members as [|member members].
  { pipeline. inversion Td; subst; inversion Tc; subst;
      read_trace; repeat split; try reflexivity; constructor. }
  set (verdict := member :: members) in *.
  assert (Htruthy : truthy (JObject verdict) = true) by reflexivity.
  destruct (truthy (dict_get verdict "mask_detected" (JBool false))) eqn:Hmask;
    destruct alerts_enabled;
    pipeline; unfold dict_get in Hmask; rewrite ?Hmask; pipeline;
    unfold dict_get in *; rewrite ?Hreason in *; cbn [format_value] in *;
    inversion Td; subst; inversion Tc; subst;
    try (destruct Te as [?|? ? [= <-] ?|? [= <-] ?]; destruct Tw);
    rewrite ?Htruthy; read_trace;
    repeat split; try reflexivity; repeat constructor.
Qed.

(** C1, as the code has it: a response that parses to a JSON object
    without the "mask_detected" key is returned by [analyze_image_for_mask]
    as it is, not as [None].  Only the empty object stops the run without a
    status and without alerts; for any other such object the indicator
    defaults to [False], the violation status is shown, and both sinks are
    entered when alerts are enabled. *)
Theorem missing_indicator_defaults_to_violation
    W cfg alerts_enabled image_bytes image_cv h out n s rest members :
  value_of (detect_faces W image_cv h) = Ok (out, n) ->
  n <> 0%nat ->
  Groq W (GROQ_API_KEY cfg) = Ok tt ->
  groq_create W (GROQ_API_KEY cfg) (groq_request W image_bytes) = Ok (Some s :: rest) ->
  json_loads W s = Ok (JObject members) ->
  dict_lookup members "mask_detected" = None ->
  let r := on_analyze_image W cfg alerts_enabled image_bytes image_cv h in
  value_of (analyze_image_for_mask W cfg image_bytes h) = Ok (JObject members) /\
  value_of r = Ok tt /\
  statuses_ok (trace_of r) = [] /\
  statuses_violation (trace_of r) =
    (if truthy (JObject members) then [status_violation] else []) /\
  sinks_invoked (trace_of r) =
    (if truthy (JObject members) && alerts_enabled then [EmailSink; MessagingSink]
     else []).
Proof.
  intros Hd Hn Eclient Ecreate Eloads Hmask r. subst r.
  destruct (detect_faces_run W image_cv h) as (out' & n' & h1 & td & Ed & Td & Hframe).
  pose proof (fun h0 => analyze_image_for_mask_parsed W cfg image_bytes s rest _ h0
                          Eclient Ecreate Eloads) as Ec.
  rewrite Ed in Hd. cbn in Hd. injection Hd as -> ->.
  destruct n as [|n]; [contradiction|].
  split; [rewrite Ec; reflexivity|].
  unfold on_analyze_image, st_image. run. rewrite Ed. run. cbn [Nat.eqb]. run.
  rewrite Ec. run.
  destruct members as [|member members].
  { cbn [truthy andb]. run. inversion Td; subst; read_trace; repeat split; reflexivity. }
  set (verdict := member :: members) in *.
  assert (Htruthy : truthy (JObject verdict) = true) by reflexivity.
  rewrite !Htruthy. destruct alerts_enabled; repeat pipeline_step;
    inversion Td; subst;
    try (destruct Te; destruct Tw); read_trace; repeat split; reflexivity.
Qed.

(** C1 as stated fails: faces are detected, alerts are enabled and the
    model answers [{"reason": "unclear"}].  The classifier returns that
    object, not [None], and both sinks are entered for a violation the
    verdict never stated. *)
Lemma missing_indicator_counterexample :
  value_of (analyze_image_for_mask world_no_indicator sample_cfg sample_bytes sample_heap)
    = Ok (JObject [("reason", JString "unclear")]) /\
  sinks_invoked
    (trace_of (on_analyze_image world_no_indicator sample_cfg true
                 sample_bytes sample_image sample_heap))
    = [EmailSink; MessagingSink] /\
  statuses_violation
    (trace_of (on_analyze_image world_no_indicator sample_cfg true
                 sample_bytes sample_image sample_heap))
    = [status_violation].
Proof. vm_compute. repeat split; reflexivity. Qed.

(** C4: when the call to the model raises, or the content of its first
    choice is rejected by [json.loads], [analyze_image_for_mask] reports
    the error and returns [None] with no exception, and the run ends with
    neither sink entered, no request to the mail server or the relay, and
    no status shown. *)
Theorem classifier_failure_returns_none_without_alert
    W cfg alerts_enabled image_bytes image_cv h :
  (exists e, groq_create W (GROQ_API_KEY cfg) (groq_request W image_bytes) = Raise e) \/
  (exists s rest e,
      groq_create W (GROQ_API_KEY cfg) (groq_request W image_bytes) = Ok (Some s :: rest) /\
      json_loads W s = Raise e) ->
  let a := analyze_image_for_mask W cfg image_bytes h in
  let r := on_analyze_image W cfg alerts_enabled image_bytes image_cv h in
  value_of a = Ok JNull /\
  heap_of a = h /\
  (exists msg, errors (trace_of a) = [msg]) /\
  value_of r = Ok tt /\
  sinks_invoked (trace_of r) = [] /\
  smtp_requests (trace_of r) = [] /\
  twilio_requests (trace_of r) = [] /\
  statuses_ok (trace_of r) = [] /\
  statuses_violation (trace_of r) = [].
Proof.
  intros Hfail a r. subst a r.
  components W cfg image_bytes image_cv h.
  assert (v = JNull /\ exists msg, errors tc = [msg]) as [-> Herr].
  { inversion Tc as [choices c v' Hclient Hcreate Hfirst Hloads| |]; subst.
    - exfalso. destruct Hfail as [[e He]|(s & rest & e & Hs & He)].
      + congruence.
      + rewrite Hs in Hcreate. injection Hcreate as <-.
        cbn in Hfirst. injection Hfirst as <-. cbn in Hloads. congruence.
    - split; [reflexivity|]. eexists. reflexivity.
    - split; [reflexivity|]. eexists. reflexivity. }
  rewrite Ec. read_trace.
  split; [reflexivity|]. split; [reflexivity|]. split; [exact Herr|].
  pipeline. destruct n as [|n]; pipeline;
    inversion Td; subst; inversion Tc; subst; read_trace; repeat split; reflexivity.
Qed.

(** C7: whatever the [try] block of [detect_faces] raises, [detect_faces]
    raises nothing: it reports the failure, returns the input array with a
    count of zero, and the run ends without the classifier being entered,
    without a request to the model and without a sink being entered. *)
Theorem detection_failure_is_contained
    W cfg alerts_enabled image_bytes image_np h e :
  value_of (detect_faces_try W image_np h) = Raise e ->
  let d := detect_faces W image_np h in
  let r := on_analyze_image W cfg alerts_enabled image_bytes image_np h in
  value_of d = Ok (image_np, 0%nat) /\
  errors (trace_of d) =
    [if is_FileNotFoundError e
     then "haarcascade_frontalface_default.xml not found. Please download it."
     else "Face detection error: " +:+ exn_str e] /\
  value_of r = Ok tt /\
  classifier_calls (trace_of r) = [] /\
  groq_requests (trace_of r) = [] /\
  sinks_invoked (trace_of r) = [] /\
  warnings (trace_of r) = [no_faces_warning].
Proof.
  intros Hraise d r. subst d r.
  destruct (detect_faces_caught W image_np h e Hraise) as (h' & Ed).
  rewrite Ed. read_trace.
  split; [reflexivity|]. split; [reflexivity|].
  pipeline. read_trace. repeat split; reflexivity.
Qed.

(** Every run of the pipeline, whatever the world answers: the sinks are
    entered in the order email, messaging, or not at all; the classifier
    and the email sink receive the bytes the pipeline was given. *)
Lemma on_analyze_image_dispatch W cfg alerts_enabled image_bytes image_cv h :
  let t := trace_of (on_analyze_image W cfg alerts_enabled image_bytes image_cv h) in
  (sinks_invoked t = [] \/ sinks_invoked t = [EmailSink; MessagingSink]) /\
  Forall (eq image_bytes) (classifier_calls t) /\
  Forall (eq (groq_request W image_bytes)) (groq_requests t) /\
  Forall (fun c => c.2 = image_bytes) (email_calls t) /\
  Forall (fun s => msg_image (smtp_message s) = image_bytes) (smtp_requests t).
Proof.
  intros t. subst t.
  components W cfg image_bytes image_cv h.
  pipeline. destruct n as [|n]; pipeline.
  { inversion Td; subst; read_trace; repeat split; auto. }
  destruct (truthy v) eqn:Htruthy; pipeline.
  2: { inversion Td; subst; inversion Tc; subst; read_trace;
       repeat split; auto; repeat constructor. }
  destruct v; pipeline;
    try (inversion Td; subst; inversion Tc; subst; read_trace;
         repeat split; auto; repeat constructor; fail).
  destruct (truthy match dict_lookup members "mask_detected" with
                   | Some v => v
                   | None => JBool false
                   end) eqn:Hmask;
    destruct alerts_enabled; pipeline;
    inversion Td; subst; inversion Tc; subst;
    try (destruct Te; destruct Tw); read_trace;
    repeat split; auto; repeat constructor.
Qed.

(** C9: in every run the sinks entered are either none, or the email sink
    followed by the messaging sink. *)
Theorem email_sink_precedes_messaging_sink
    W cfg alerts_enabled image_bytes image_cv h :
  sinks_invoked (trace_of (on_analyze_image W cfg alerts_enabled image_bytes image_cv h)) = []
  \/ sinks_invoked (trace_of (on_analyze_image W cfg alerts_enabled image_bytes image_cv h))
     = [EmailSink; MessagingSink].
Proof.
  exact (proj1 (on_analyze_image_dispatch W cfg alerts_enabled image_bytes image_cv h)).
Qed.

Lemma truthy_object members : truthy (JObject members) = true <-> members <> [].
Proof. destruct members; cbn; split; congruence. Qed.

(** The detector when cascade, conversion and detection answer: the copy
    is the first free location of the store, and the outcome is that of
    the drawing. *)
Lemma detect_faces_try_exact W image_np h face_cascade pixels gray faces :
  cv2_CascadeClassifier W "haarcascade_frontalface_default.xml" = Ok face_cascade ->
  h !! image_np = Some pixels ->
  cv2_cvtColor_BGR2GRAY W pixels = Ok gray ->
  detectMultiScale W face_cascade gray scaleFactor 5 (30, 30) = Ok faces ->
  exists h',
    detect_faces_try W image_np h =
      (match boxes_drawn W pixels faces with
       | Ok _ => Ok (fresh (dom h), length faces)
       | Raise e => Raise e
       end, h', []) /\
    (forall a, (a ∈ dom h) -> h' !! a = h !! a) /\
    (forall drawn, boxes_drawn W pixels faces = Ok drawn ->
                   h' !! fresh (dom h) = Some drawn).
Proof.
  intros Ec Hpix Eg Ed.
  unfold detect_faces_try, np_copy, deref, alloc. run.
  rewrite Ec. run. rewrite Hpix. run. rewrite Eg. run. rewrite Ed. run.
  rewrite Hpix. run.
  set (out := fresh (dom h)).
  assert (Hfresh : out ∉ dom h) by apply is_fresh.
  destruct (draw_boxes_run W out faces (<[out := pixels]> h) pixels)
    as (r & h' & E & Hframe & Hres).
  { apply lookup_insert_eq. }
  rewrite E. exists h'.
  assert (Hold : forall a, (a ∈ dom h) -> h' !! a = h !! a).
  { intros a Ha. rewrite Hframe by (intros ->; contradiction).
    apply lookup_insert_ne. intros ->. contradiction. }
  destruct (boxes_drawn W pixels faces) as [drawn|e].
  - destruct Hres as [-> Hout]. run. split; [reflexivity|]. split; [exact Hold|].
    intros drawn' [= <-]. exact Hout.
  - subst r. split; [reflexivity|]. split; [exact Hold|]. discriminate.
Qed.

(** The detector when every library call answers. *)
Lemma detect_faces_exact W image_np h face_cascade pixels gray faces drawn :
  cv2_CascadeClassifier W "haarcascade_frontalface_default.xml" = Ok face_cascade ->
  h !! image_np = Some pixels ->
  cv2_cvtColor_BGR2GRAY W pixels = Ok gray ->
  detectMultiScale W face_cascade gray scaleFactor 5 (30, 30) = Ok faces ->
  boxes_drawn W pixels faces = Ok drawn ->
  exists h',
    detect_faces W image_np h =
      (Ok (fresh (dom h), length faces), h', [Enter (Call_detect_faces image_np)]) /\
    h' !! image_np = Some pixels /\
    h' !! fresh (dom h) = Some drawn.
Proof.
  intros Ec Hpix Eg Ed Hdraw.
  destruct (detect_faces_try_exact W image_np h _ _ _ _ Ec Hpix Eg Ed)
    as (h' & E & Hframe & Hout).
  rewrite Hdraw in E. exists h'.
  unfold detect_faces. run. rewrite E.
  split; [reflexivity|]. split; [|apply Hout; exact Hdraw].
  rewrite Hframe; [exact Hpix|]. eapply elem_of_dom_2, Hpix.
Qed.

(** The trace of a run that dispatches: the page up to the warning, then
    what the email sink leaves, then what the messaging sink leaves. *)
Lemma dispatch_trace W cfg image_bytes image_cv h out n members :
  value_of (detect_faces W image_cv h) = Ok (out, n) ->
  n <> 0%nat ->
  value_of (analyze_image_for_mask W cfg image_bytes h) = Ok (JObject members) ->
  members <> [] ->
  truthy (dict_get members "mask_detected" (JBool false)) = false ->
  let reason := dict_get members "reason" (JString "No reason provided.") in
  let h1 := heap_of (detect_faces W image_cv h) in
  on_analyze_image W cfg true image_bytes image_cv h =
  (Ok tt, h1,
   [ StSpinner "Step 1/2: Detecting faces...";
     Enter (Call_detect_faces image_cv);
     StImage out (h1 !! out)
       ("Face Detection Result: " +:+ pretty n +:+ " face(s) found!") "BGR";
     StSpinner "Step 2/2: Analyzing for mask with Meta Llama 4...";
     Enter (Call_analyze_image_for_mask image_bytes);
     GroqRequest (GROQ_API_KEY cfg) (groq_request W image_bytes);
     StSubheader "📈 Analysis Complete";
     Col1Error status_violation;
     Col2Info ("**AI Reason:** " +:+ format_value W reason);
     StWarning sending_alerts_warning ]
   ++ trace_of (send_alert_email W cfg alert_subject reason image_bytes h1)
   ++ trace_of (send_whatsapp_alert W cfg (whatsapp_heading +:+ format_value W reason) h1)).
Proof.
  intros Hd Hn Ha Hne Hmask reason h1'. subst reason h1'.
  destruct (detect_faces_run W image_cv h) as (out' & n' & h1 & td & Ed & Td & Hframe).
  destruct (analyze_image_for_mask_run W cfg image_bytes) as (v' & tc & Tc & Ec).
  rewrite Ed in Hd. rewrite Ec in Ha. cbn in Hd, Ha.
  injection Hd as -> ->. injection Ha as ->.
  destruct n as [|n]; [contradiction|].
  apply truthy_object in Hne.
  destruct (send_alert_email_run W cfg alert_subject
              (dict_get members "reason" (JString "No reason provided.")) image_bytes)
    as (te & Te & Ee).
  destruct (send_whatsapp_alert_run W cfg
              (whatsapp_heading +:+
               format_value W (dict_get members "reason" (JString "No reason provided."))))
    as (tw & Tw & Ew).
  unfold on_analyze_image, st_image. run. rewrite Ed. run. cbn [Nat.eqb]. run.
  rewrite Ec. run. rewrite Hne. run. cbn [py_get]. run. rewrite Hmask.
  cbn [negb andb]. run. rewrite !Ee. run. rewrite !Ew. run.
  inversion Td; subst; inversion Tc; subst. read_trace. reflexivity.
Qed.

(** A mail whose text and image can be built reaches the mail server:
    one session is opened, with the message made of what the call was
    given. *)
Lemma send_alert_email_requested W cfg subject text image_bytes :
  MIMEText_str W text = Ok tt ->
  MIMEImage W image_bytes "violation_capture.jpg" = Ok tt ->
  exists last_entry,
    forall h,
      send_alert_email W cfg subject (JString text) image_bytes h =
      (Ok tt, h,
       [Enter (Call_send_alert_email subject (JString text) image_bytes);
        SmtpRequest (alert_session cfg (alert_message cfg subject text image_bytes));
        last_entry]) /\
      smtp_requests [last_entry] = [].
Proof.
  intros Etext Eimg. unfold send_alert_email.
  destruct (smtp_deliver W (alert_session cfg (alert_message cfg subject text image_bytes)))
    as [[]|e] eqn:Esmtp.
  - exists email_sent_toast. intros h. run. cbn [MIMEText]. rewrite Etext, Eimg. run.
    rewrite Esmtp. split; reflexivity.
  - exists (StError ("Failed to send email: " +:+ exn_str e)). intros h. run.
    cbn [MIMEText]. rewrite Etext, Eimg. run. rewrite Esmtp. split; reflexivity.
Qed.

(** C8: [detect_faces] leaves every array of the store as it was, its
    input included.  When the cascade, the conversion, the detector and
    the drawing answer, the array it returns is a new one, the first free
    location of the store, holding the input's pixels with a rectangle
    drawn over each face the detector returned, and the count is the number
    of those faces; in every run it either does this and reports no error,
    or reports one error and returns the input array itself, untouched.
    In a run of the page on an uploaded [buffer], the bytes passed to the
    classifier, encoded in the request to the model, passed to the email
    sink and attached to the mail are [buffer]: always, and in a run that
    detects a face and dispatches, the classifier is entered on [buffer],
    the model is sent the request built from [buffer], the email sink is
    entered with [buffer], and the mail that leaves carries [buffer]. *)
Theorem face_locator_preserves_input_and_original_bytes_are_sent :
  (forall W image_np h,
      let d := detect_faces W image_np h in
      (forall a, (a ∈ dom h) -> heap_of d !! a = h !! a) /\
      exists out n,
        value_of d = Ok (out, n) /\
        ((errors (trace_of d) = [] /\
          (out ∉ dom h) /\
          exists pixels faces drawn,
            h !! image_np = Some pixels /\
            n = length faces /\
            boxes_drawn W pixels faces = Ok drawn /\
            heap_of d !! out = Some drawn)
         \/
         ((exists msg, errors (trace_of d) = [msg]) /\
          out = image_np /\ n = 0%nat))) /\
  (forall W image_np h face_cascade pixels gray faces drawn,
      cv2_CascadeClassifier W "haarcascade_frontalface_default.xml" = Ok face_cascade ->
      h !! image_np = Some pixels ->
      cv2_cvtColor_BGR2GRAY W pixels = Ok gray ->
      detectMultiScale W face_cascade gray scaleFactor 5 (30, 30) = Ok faces ->
      boxes_drawn W pixels faces = Ok drawn ->
      let d := detect_faces W image_np h in
      let out := fresh (dom h) in
      value_of d = Ok (out, length faces) /\
      (out ∉ dom h) /\
      out <> image_np /\
      heap_of d !! out = Some drawn /\
      heap_of d !! image_np = Some pixels /\
      errors (trace_of d) = []) /\
  (forall W cfg alerts_enabled buffer button h,
      let t := trace_of (analysis_and_display W cfg alerts_enabled (Some buffer) button h) in
      Forall (eq buffer) (classifier_calls t) /\
      Forall (eq (groq_request W buffer)) (groq_requests t) /\
      Forall (fun c => c.2 = buffer) (email_calls t) /\
      Forall (fun s => msg_image (smtp_message s) = buffer) (smtp_requests t)) /\
  (forall W cfg buffer h rgb bgr out n members,
      pil_open_rgb W buffer = Ok rgb ->
      cv2_cvtColor_RGB2BGR W rgb = Ok bgr ->
      let image_np := fresh (dom h) in
      let image_cv := fresh (dom (<[image_np := rgb]> h)) in
      let h2 := <[image_cv := bgr]> (<[image_np := rgb]> h) in
      value_of (detect_faces W image_cv h2) = Ok (out, n) ->
      n <> 0%nat ->
      value_of (analyze_image_for_mask W cfg buffer h2) = Ok (JObject members) ->
      members <> [] ->
      truthy (dict_get members "mask_detected" (JBool false)) = false ->
      let t := trace_of (analysis_and_display W cfg true (Some buffer) true h) in
      let reason := dict_get members "reason" (JString "No reason provided.") in
      classifier_calls t = [buffer] /\
      groq_requests t = [groq_request W buffer] /\
      email_calls t = [(alert_subject, reason, buffer)] /\
      (forall text,
          reason = JString text ->
          MIMEText_str W text = Ok tt ->
          MIMEImage W buffer "violation_capture.jpg" = Ok tt ->
          smtp_requests t =
            [alert_session cfg (alert_message cfg alert_subject text buffer)] /\
          map (fun s => msg_image (smtp_message s)) (smtp_requests t) = [buffer])).
Proof.
  split; [|split; [|split]].
  - intros W image_np h d. subst d.
    destruct (detect_faces_try_run W image_np h) as (r & h' & E & Hframe & Hres).
    unfold detect_faces. run. rewrite E.
    destruct r as [[out n]|e].
    + read_trace. split; [exact Hframe|].
      exists out, n. split; [reflexivity|]. left.
      destruct Hres as (Hfresh & c & pixels & gray & faces & drawn
                        & _ & Hpix & _ & _ & Hn & Hdrawn & Hout).
      split; [reflexivity|]. split; [exact Hfresh|].
      exists pixels, faces, drawn. auto.
    + unfold detect_faces_except.
      destruct (is_FileNotFoundError e); run; read_trace;
        (split; [exact Hframe|]); exists image_np, 0%nat;
        (split; [reflexivity|]); right; (split; [eexists; reflexivity|auto]).
  - intros W image_np h face_cascade pixels gray faces drawn Ec Hpix Eg Ed Hdraw d out.
    subst d out.
    destruct (detect_faces_exact W image_np h _ _ _ _ _ Ec Hpix Eg Ed Hdraw)
      as (h' & E & Hin & Hout).
    rewrite E. read_trace.
    assert (Hfresh : fresh (dom h) ∉ dom h) by apply is_fresh.
    repeat split; try assumption; try reflexivity.
    intros Heq. apply Hfresh. rewrite Heq. eapply elem_of_dom_2, Hpix.
  - intros W cfg alerts_enabled buffer button h t. subst t.
    unfold analysis_and_display, alloc. run.
    destruct (pil_open_rgb W buffer) as [rgb|e]; run.
    2: { read_trace. repeat split; constructor. }
    destruct (cv2_cvtColor_RGB2BGR W rgb) as [bgr|e]; run.
    2: { read_trace. repeat split; constructor. }
    destruct button; run.
    2: { read_trace. repeat split; constructor. }
    match goal with
    | |- context [on_analyze_image W cfg alerts_enabled buffer ?l ?h0] =>
        pose proof (on_analyze_image_dispatch W cfg alerts_enabled buffer l h0) as Hrun;
        destruct (on_analyze_image W cfg alerts_enabled buffer l h0) as [[r h'] t]
    end.
    cbn [trace_of snd] in Hrun. destruct Hrun as (_ & Hc & Hg & He & Hs).
    read_trace. auto.
  - intros W cfg buffer h rgb bgr out n members Hopen Hcvt image_np image_cv h2
           Hd Hn Ha Hne Hmask t reason.
    assert (Et : t = StSubheader "2. Analyze and Get Results"
                     :: trace_of (on_analyze_image W cfg true buffer image_cv h2)).
    { subst t. unfold analysis_and_display, alloc. run. rewrite Hopen. run.
      rewrite Hcvt. run. fold image_np. fold image_cv. fold h2.
      destruct (on_analyze_image W cfg true buffer image_cv h2) as [[r h'] tr].
      reflexivity. }
    rewrite Et.
    rewrite (dispatch_trace W cfg buffer image_cv h2 out n members Hd Hn Ha Hne Hmask).
    fold reason. cbn [trace_of snd].
    set (h1 := heap_of (detect_faces W image_cv h2)).
    split; [|split; [|split]].
    + destruct (send_alert_email_run W cfg alert_subject reason buffer) as (te & Te & Ee).
      destruct (send_whatsapp_alert_run W cfg (whatsapp_heading +:+ format_value W reason))
        as (tw & Tw & Ew).
      rewrite Ee, Ew. destruct Te; destruct Tw; read_trace; reflexivity.
    + destruct (send_alert_email_run W cfg alert_subject reason buffer) as (te & Te & Ee).
      destruct (send_whatsapp_alert_run W cfg (whatsapp_heading +:+ format_value W reason))
        as (tw & Tw & Ew).
      rewrite Ee, Ew. destruct Te; destruct Tw; read_trace; reflexivity.
    + destruct (send_alert_email_run W cfg alert_subject reason buffer) as (te & Te & Ee).
      destruct (send_whatsapp_alert_run W cfg (whatsapp_heading +:+ format_value W reason))
        as (tw & Tw & Ew).
      rewrite Ee, Ew. destruct Te; destruct Tw; read_trace; reflexivity.
    + intros text Hreason Etext Eimg. rewrite Hreason.
      destruct (send_alert_email_requested W cfg alert_subject text buffer Etext Eimg)
        as (last_entry & Hsend).
      destruct (Hsend h1) as (Ee & Hlast). rewrite Ee.
      destruct (send_whatsapp_alert_run W cfg
                  (whatsapp_heading +:+ format_value W (JString text)))
        as (tw & Tw & Ew).
      rewrite Ew.
      unfold smtp_requests in Hlast. cbn [omap list_omap] in Hlast.
      destruct last_entry; try discriminate;
        destruct Tw; read_trace; split; reflexivity.
Qed.

(** A verdict that is true but is no JSON object (a non-empty array or
    string, a number other than zero, [true]) has no [get]: the attribute
    error leaves the run, after the "Analysis Complete" heading and before
    any status; no sink is entered. *)
Lemma non_object_verdict_raises
    W cfg alerts_enabled image_bytes image_cv h out n v :
  value_of (detect_faces W image_cv h) = Ok (out, n) ->
  n <> 0%nat ->
  value_of (analyze_image_for_mask W cfg image_bytes h) = Ok v ->
  truthy v = true ->
  (forall members, v <> JObject members) ->
  let r := on_analyze_image W cfg alerts_enabled image_bytes image_cv h in
  value_of r = Raise (no_attribute v "get") /\
  sinks_invoked (trace_of r) = [] /\
  statuses_ok (trace_of r) = [] /\
  statuses_violation (trace_of r) = [].
Proof.
  intros Hd Hn Ha Htruthy Hobj r. subst r.
  destruct (detect_faces_run W image_cv h) as (out' & n' & h1 & td & Ed & Td & Hframe).
  destruct (analyze_image_for_mask_run W cfg image_bytes) as (v' & tc & Tc & Ec).
  rewrite Ed in Hd. rewrite Ec in Ha. cbn in Hd, Ha.
  injection Hd as -> ->. injection Ha as ->.
  destruct n as [|n]; [contradiction|].
  pipeline.
  destruct v; try discriminate; try (exfalso; eapply Hobj; reflexivity);
    pipeline; inversion Td; subst; inversion Tc; subst;
    read_trace; repeat split; reflexivity.
Qed.

(** ** The statements at concrete inputs *)

(** C2 on an image in which the detector finds nothing. *)
Lemma no_faces_no_classifier_no_alert_witness :
  value_of (detect_faces world_no_faces sample_image sample_heap)
    = Ok (2%positive, 0%nat) /\
  classifier_calls
    (trace_of (on_analyze_image world_no_faces sample_cfg true
                 sample_bytes sample_image sample_heap)) = [] /\
  sinks_invoked
    (trace_of (on_analyze_image world_no_faces sample_cfg true
                 sample_bytes sample_image sample_heap)) = [] /\
  warnings
    (trace_of (on_analyze_image world_no_faces sample_cfg true
                 sample_bytes sample_image sample_heap)) = [no_faces_warning].
Proof.
  assert (Hd : value_of (detect_faces world_no_faces sample_image sample_heap)
               = Ok (2%positive, 0%nat)) by (vm_compute; reflexivity).
  pose proof (no_faces_no_classifier_no_alert world_no_faces sample_cfg true
                sample_bytes sample_image sample_heap 2%positive Hd) as C.
  cbv zeta in C. destruct C as (_ & Hc & _ & Hs & _ & _ & Hw & _).
  repeat split; assumption.
Defined.

(** C3 with two faces, a violation verdict, and a mail server that cannot
    be reached: the messaging sink is entered all the same. *)
Lemma violation_invokes_both_sinks_once_witness :
  value_of (detect_faces world_mail_down sample_image sample_heap)
    = Ok (2%positive, 2%nat) /\
  value_of (analyze_image_for_mask world_mail_down sample_cfg sample_bytes sample_heap)
    = Ok violation_verdict /\
  smtp_deliver world_mail_down
    (alert_session sample_cfg
       (alert_message sample_cfg alert_subject "visible nose and mouth" sample_bytes))
    = Raise network_down /\
  value_of (on_analyze_image world_mail_down sample_cfg true
              sample_bytes sample_image sample_heap) = Ok tt /\
  sinks_invoked
    (trace_of (on_analyze_image world_mail_down sample_cfg true
                 sample_bytes sample_image sample_heap)) = [EmailSink; MessagingSink].
Proof.
  assert (Hd : value_of (detect_faces world_mail_down sample_image sample_heap)
               = Ok (2%positive, 2%nat)) by (vm_compute; reflexivity).
  assert (Ha : value_of (analyze_image_for_mask world_mail_down sample_cfg
                           sample_bytes sample_heap)
               = Ok (JObject [("mask_detected", JBool false);
                              ("reason", JString "visible nose and mouth")]))
    by (vm_compute; reflexivity).
  assert (Hn : 2%nat <> 0%nat) by lia.
  assert (Hm : dict_lookup [("mask_detected", JBool false);
                            ("reason", JString "visible nose and mouth")]
                 "mask_detected" = Some (JBool false)) by reflexivity.
  pose proof (violation_invokes_both_sinks_once world_mail_down sample_cfg
                sample_bytes sample_image sample_heap 2%positive 2%nat _
                Hd Hn Ha Hm) as C.
  cbv zeta in C. destruct C as (Hv & Hs & _).
  repeat split; try assumption; reflexivity.
Defined.

(** C5 with two faces, a violation verdict and alerts disabled. *)
Lemma disabled_alerts_still_report_violation_witness :
  value_of (detect_faces world_violation sample_image sample_heap)
    = Ok (2%positive, 2%nat) /\
  value_of (analyze_image_for_mask world_violation sample_cfg sample_bytes sample_heap)
    = Ok violation_verdict /\
  sinks_invoked
    (trace_of (on_analyze_image world_violation sample_cfg false
                 sample_bytes sample_image sample_heap)) = [] /\
  statuses_violation
    (trace_of (on_analyze_image world_violation sample_cfg false
                 sample_bytes sample_image sample_heap)) = [status_violation] /\
  statuses_ok
    (trace_of (on_analyze_image world_violation sample_cfg false
                 sample_bytes sample_image sample_heap)) = [].
Proof.
  assert (Hd : value_of (detect_faces world_violation sample_image sample_heap)
               = Ok (2%positive, 2%nat)) by (vm_compute; reflexivity).
  assert (Ha : value_of (analyze_image_for_mask world_violation sample_cfg
                           sample_bytes sample_heap)
               = Ok (JObject [("mask_detected", JBool false);
                              ("reason", JString "visible nose and mouth")]))
    by (vm_compute; reflexivity).
  assert (Hn : 2%nat <> 0%nat) by lia.
  assert (Hm : dict_lookup [("mask_detected", JBool false);
                            ("reason", JString "visible nose and mouth")]
                 "mask_detected" = Some (JBool false)) by reflexivity.
  pose proof (disabled_alerts_still_report_violation world_violation sample_cfg
                sample_bytes sample_image sample_heap 2%positive 2%nat _
                Hd Hn Ha Hm) as C.
  cbv zeta in C. destruct C as (_ & Hs & _ & _ & Hv & Ho & _).
  repeat split; try assumption; reflexivity.
Defined.

(** C6 on the scenario with two faces. *)
Lemma scenario_violation_alerts_sent_witness :
  value_of (detect_faces world_violation sample_image sample_heap)
    = Ok (2%positive, 2%nat) /\
  value_of (analyze_image_for_mask world_violation sample_cfg sample_bytes sample_heap)
    = Ok violation_verdict /\
  email_calls
    (trace_of (on_analyze_image world_violation sample_cfg true
                 sample_bytes sample_image sample_heap))
    = [(alert_subject, JString "visible nose and mouth", sample_bytes)] /\
  whatsapp_calls
    (trace_of (on_analyze_image world_violation sample_cfg true
                 sample_bytes sample_image sample_heap))
    = [whatsapp_heading +:+ "visible nose and mouth"] /\
  warnings
    (trace_of (on_analyze_image world_violation sample_cfg true
                 sample_bytes sample_image sample_heap))
    = [sending_alerts_warning].
Proof.
  assert (Hd : value_of (detect_faces world_violation sample_image sample_heap)
               = Ok (2%positive, 2%nat)) by (vm_compute; reflexivity).
  assert (Ha : value_of (analyze_image_for_mask world_violation sample_cfg
                           sample_bytes sample_heap)
               = Ok violation_verdict) by (vm_compute; reflexivity).
  assert (Hn : 2%nat <> 0%nat) by lia.
  pose proof (scenario_violation_alerts_sent world_violation sample_cfg
                sample_bytes sample_image sample_heap 2%positive 2%nat
                Hd Hn Ha) as C.
  cbv zeta in C. destruct C as (_ & _ & He & Hw & _ & _ & _ & _ & _ & _ & Hwarn).
  repeat split; assumption.
Defined.

(** C10 on the verdict [{"mask_detected": false}]. *)
Lemma missing_reason_defaults_witness :
  value_of (detect_faces world_no_reason sample_image sample_heap)
    = Ok (2%positive, 2%nat) /\
  value_of (analyze_image_for_mask world_no_reason sample_cfg sample_bytes sample_heap)
    = Ok no_reason_verdict /\
  reasons_shown
    (trace_of (on_analyze_image world_no_reason sample_cfg true
                 sample_bytes sample_image sample_heap))
    = ["**AI Reason:** No reason provided."] /\
  email_calls
    (trace_of (on_analyze_image world_no_reason sample_cfg true
                 sample_bytes sample_image sample_heap))
    = [(alert_subject, JString "No reason provided.", sample_bytes)] /\
  whatsapp_calls
    (trace_of (on_analyze_image world_no_reason sample_cfg true
                 sample_bytes sample_image sample_heap))
    = [whatsapp_heading +:+ "No reason provided."].
Proof.
  assert (Hd : value_of (detect_faces world_no_reason sample_image sample_heap)
               = Ok (2%positive, 2%nat)) by (vm_compute; reflexivity).
  assert (Ha : value_of (analyze_image_for_mask world_no_reason sample_cfg
                           sample_bytes sample_heap)
               = Ok (JObject [("mask_detected", JBool false)]))
    by (vm_compute; reflexivity).
  assert (Hn : 2%nat <> 0%nat) by lia.
  assert (Hr : dict_lookup [("mask_detected", JBool false)] "reason" = None)
    by reflexivity.
  pose proof (missing_reason_defaults world_no_reason sample_cfg true
                sample_bytes sample_image sample_heap 2%positive 2%nat _
                Hd Hn Ha Hr) as C.
  cbv zeta in C. destruct C as (_ & Hshown & He & Hw & _).
  repeat split; try assumption; reflexivity.
Defined.

(** The amended C1 on the verdict [{"reason": "unclear"}]. *)
Lemma missing_indicator_defaults_to_violation_witness :
  value_of (detect_faces world_no_indicator sample_image sample_heap)
    = Ok (2%positive, 2%nat) /\
  groq_create world_no_indicator (GROQ_API_KEY sample_cfg)
    (groq_request world_no_indicator sample_bytes) = Ok [Some no_indicator_text] /\
  json_loads world_no_indicator no_indicator_text = Ok no_indicator_verdict /\
  value_of (analyze_image_for_mask world_no_indicator sample_cfg sample_bytes sample_heap)
    = Ok no_indicator_verdict /\
  statuses_violation
    (trace_of (on_analyze_image world_no_indicator sample_cfg false
                 sample_bytes sample_image sample_heap)) = [status_violation] /\
  sinks_invoked
    (trace_of (on_analyze_image world_no_indicator sample_cfg false
                 sample_bytes sample_image sample_heap)) = [].
Proof.
  assert (Hd : value_of (detect_faces world_no_indicator sample_image sample_heap)
               = Ok (2%positive, 2%nat)) by (vm_compute; reflexivity).
  assert (Hn : 2%nat <> 0%nat) by lia.
  assert (Hc : Groq world_no_indicator (GROQ_API_KEY sample_cfg) = Ok tt) by reflexivity.
  assert (Hg : groq_create world_no_indicator (GROQ_API_KEY sample_cfg)
                 (groq_request world_no_indicator sample_bytes)
               = Ok [Some no_indicator_text]) by reflexivity.
  assert (Hj : json_loads world_no_indicator no_indicator_text
               = Ok (JObject [("reason", JString "unclear")]))
    by (vm_compute; reflexivity).
  assert (Hm : dict_lookup [("reason", JString "unclear")] "mask_detected" = None)
    by reflexivity.
  pose proof (missing_indicator_defaults_to_violation world_no_indicator sample_cfg false
                sample_bytes sample_image sample_heap 2%positive 2%nat
                no_indicator_text [] _ Hd Hn Hc Hg Hj Hm) as C.
  cbv zeta in C. destruct C as (Ha & _ & _ & Hv & Hs).
  repeat split; try assumption; reflexivity.
Defined.

(** C4 when the model cannot be reached. *)
Lemma classifier_failure_returns_none_without_alert_witness :
  groq_create world_model_down (GROQ_API_KEY sample_cfg)
    (groq_request world_model_down sample_bytes) = Raise network_down /\
  value_of (analyze_image_for_mask world_model_down sample_cfg sample_bytes sample_heap)
    = Ok JNull /\
  value_of (on_analyze_image world_model_down sample_cfg true
              sample_bytes sample_image sample_heap) = Ok tt /\
  sinks_invoked
    (trace_of (on_analyze_image world_model_down sample_cfg true
                 sample_bytes sample_image sample_heap)) = [].
Proof.
  assert (Hg : groq_create world_model_down (GROQ_API_KEY sample_cfg)
                 (groq_request world_model_down sample_bytes)
               = Raise network_down) by reflexivity.
  pose proof (classifier_failure_returns_none_without_alert world_model_down sample_cfg
                true sample_bytes sample_image sample_heap
                (or_introl (ex_intro _ network_down Hg))) as C.
  cbv zeta in C. destruct C as (Ha & _ & _ & Hv & Hs & _).
  repeat split; assumption.
Defined.

(** C7 when the cascade file is missing. *)
Lemma detection_failure_is_contained_witness :
  value_of (detect_faces_try world_without_cascade sample_image sample_heap)
    = Raise {| exn_cls := FileNotFoundError;
               exn_str := "haarcascade_frontalface_default.xml" |} /\
  value_of (detect_faces world_without_cascade sample_image sample_heap)
    = Ok (sample_image, 0%nat) /\
  errors (trace_of (detect_faces world_without_cascade sample_image sample_heap))
    = ["haarcascade_frontalface_default.xml not found. Please download it."] /\
  classifier_calls
    (trace_of (on_analyze_image world_without_cascade sample_cfg true
                 sample_bytes sample_image sample_heap)) = [].
Proof.
  assert (Ht : value_of (detect_faces_try world_without_cascade sample_image sample_heap)
               = Raise {| exn_cls := FileNotFoundError;
                          exn_str := "haarcascade_frontalface_default.xml" |})
    by (vm_compute; reflexivity).
  pose proof (detection_failure_is_contained world_without_cascade sample_cfg true
                sample_bytes sample_image sample_heap _ Ht) as C.
  cbv zeta in C. destruct C as (Hd & He & _ & Hc & _).
  repeat split; assumption.
Defined.

(** C8 on two faces: the detector returns a new array holding the
    rectangles and leaves its input alone; a run of the page that
    dispatches hands the uploaded bytes to the classifier, the email sink
    and the mail. *)
Lemma face_locator_preserves_input_and_original_bytes_are_sent_witness :
  value_of (detect_faces world_violation sample_image sample_heap)
    = Ok (2%positive, 2%nat) /\
  heap_of (detect_faces world_violation sample_image sample_heap) !! 2%positive
    = Some red_pixels /\
  heap_of (detect_faces world_violation sample_image sample_heap) !! sample_image
    = Some sample_pixels /\
  errors (trace_of (detect_faces world_violation sample_image sample_heap)) = [] /\
  classifier_calls
    (trace_of (analysis_and_display world_violation sample_cfg true
                 (Some sample_bytes) true ∅)) = [sample_bytes] /\
  email_calls
    (trace_of (analysis_and_display world_violation sample_cfg true
                 (Some sample_bytes) true ∅))
    = [(alert_subject, JString "visible nose and mouth", sample_bytes)] /\
  map (fun s => msg_image (smtp_message s))
    (smtp_requests
       (trace_of (analysis_and_display world_violation sample_cfg true
                    (Some sample_bytes) true ∅))) = [sample_bytes].
Proof.
  destruct face_locator_preserves_input_and_original_bytes_are_sent
    as (_ & Hcopy & _ & Hbytes).
  assert (Hpix : sample_heap !! sample_image = Some sample_pixels)
    by (vm_compute; reflexivity).
  assert (Hdrawn : boxes_drawn world_violation sample_pixels two_faces = Ok red_pixels)
    by (vm_compute; reflexivity).
  pose proof (Hcopy world_violation sample_image sample_heap
                {| cascade_file := "haarcascade_frontalface_default.xml" |}
                sample_pixels [[2; 5]; [8; 11]] two_faces red_pixels
                eq_refl Hpix eq_refl eq_refl Hdrawn) as C.
  cbv zeta in C. destruct C as (Hvalue & _ & _ & Hout & Hin & Herr).
  assert (Hd : value_of (detect_faces world_violation 2%positive
                           (<[2%positive := sample_bgr]>
                              (<[1%positive := sample_pixels]> ∅)))
               = Ok (3%positive, 2%nat)) by (vm_compute; reflexivity).
  assert (Ha : value_of (analyze_image_for_mask world_violation sample_cfg sample_bytes
                           (<[2%positive := sample_bgr]>
                              (<[1%positive := sample_pixels]> ∅)))
               = Ok (JObject [("mask_detected", JBool false);
                              ("reason", JString "visible nose and mouth")]))
    by (vm_compute; reflexivity).
  assert (Hn : 2%nat <> 0%nat) by lia.
  assert (Hne : [("mask_detected", JBool false);
                 ("reason", JString "visible nose and mouth")] <> [])
    by discriminate.
  pose proof (Hbytes world_violation sample_cfg sample_bytes ∅ sample_pixels sample_bgr
                3%positive 2%nat _ eq_refl eq_refl Hd Hn Ha Hne eq_refl) as D.
  cbv zeta in D. destruct D as (Hc & _ & He & Hmail).
  destruct (Hmail "visible nose and mouth" eq_refl eq_refl eq_refl) as (_ & Hattached).
  repeat split; assumption.
Defined.

(** ** Further properties of the script *)

Ltac read_more :=
  read_trace;
  cbn [backend_calls detector_calls toasts images_shown omap list_omap app
       email_sent_toast whatsapp_sent_toast].

(** X1: with at least one detected face and a verdict whose indicator is
    true in Python's sense (any value but [false], [null], zero and the
    empty string, list and object), the mask-detected status is shown and
    nothing is dispatched, whether alerts are enabled or not. *)
Theorem mask_worn_no_alert
    W cfg alerts_enabled image_bytes image_cv h out n members indicator :
  value_of (detect_faces W image_cv h) = Ok (out, n) ->
  n <> 0%nat ->
  value_of (analyze_image_for_mask W cfg image_bytes h) = Ok (JObject members) ->
  dict_lookup members "mask_detected" = Some indicator ->
  truthy indicator = true ->
  let r := on_analyze_image W cfg alerts_enabled image_bytes image_cv h in
  value_of r = Ok tt /\
  statuses_ok (trace_of r) = [status_mask_detected] /\
  statuses_violation (trace_of r) = [] /\
  warnings (trace_of r) = [] /\
  sinks_invoked (trace_of r) = [] /\
  smtp_requests (trace_of r) = [] /\
  twilio_requests (trace_of r) = [].
Proof.
  intros Hd Hn Ha Hmask Hind r. subst r.
  components W cfg image_bytes image_cv h.
  rewrite Ed in Hd. rewrite Ec in Ha. cbn in Hd, Ha.
  injection Hd as -> ->. injection Ha as ->.
  pose proof (truthy_verdict _ _ _ Hmask) as Htruthy.
  destruct n as [|n]; [contradiction|].
  pipeline.
  inversion Td; subst; inversion Tc; subst;
    read_trace; repeat split; reflexivity.
Qed.

(** With alerts disabled a run dispatches nothing. *)
Lemma on_analyze_image_alerts_off W cfg image_bytes image_cv h :
  sinks_invoked (trace_of (on_analyze_image W cfg false image_bytes image_cv h)) = [] /\
  smtp_requests (trace_of (on_analyze_image W cfg false image_bytes image_cv h)) = [] /\
  twilio_requests (trace_of (on_analyze_image W cfg false image_bytes image_cv h)) = [] /\
  toasts (trace_of (on_analyze_image W cfg false image_bytes image_cv h)) = [].
Proof.
  components W cfg image_bytes image_cv h.
  pipeline. destruct n as [|n]; pipeline.
  { inversion Td; subst; read_more; repeat split; reflexivity. }
  destruct (truthy v) eqn:Htruthy; pipeline.
  2: { inversion Td; subst; inversion Tc; subst; read_more; repeat split; reflexivity. }
  destruct v; pipeline;
    try (inversion Td; subst; inversion Tc; subst; read_more;
         repeat split; reflexivity).
  destruct (truthy match dict_lookup members "mask_detected" with
                   | Some v => v
                   | None => JBool false
                   end) eqn:Hmask;
    pipeline; inversion Td; subst; inversion Tc; subst; read_more;
    repeat split; reflexivity.
Qed.

(** X2: with alerts disabled nothing is ever dispatched: whatever the
    detector, the model and the verdict, no sink is entered, no request
    goes to the mail server or to the messaging relay, and no success toast
    is shown. *)
Theorem disabled_alerts_never_dispatch W cfg image_bytes image_cv h :
  sinks_invoked (trace_of (on_analyze_image W cfg false image_bytes image_cv h)) = [] /\
  smtp_requests (trace_of (on_analyze_image W cfg false image_bytes image_cv h)) = [] /\
  twilio_requests (trace_of (on_analyze_image W cfg false image_bytes image_cv h)) = [] /\
  toasts (trace_of (on_analyze_image W cfg false image_bytes image_cv h)) = [].
Proof. exact (on_analyze_image_alerts_off W cfg image_bytes image_cv h). Qed.

(** X3: the sinks are entered exactly when a face was detected, alerts
    are enabled, and the verdict is a non-empty JSON object whose
    "mask_detected" value (taken as [False] when the key is absent) is
    false in Python's sense. *)
Theorem alerts_dispatched_iff
    W cfg alerts_enabled image_bytes image_cv h out n v :
  value_of (detect_faces W image_cv h) = Ok (out, n) ->
  value_of (analyze_image_for_mask W cfg image_bytes h) = Ok v ->
  sinks_invoked (trace_of (on_analyze_image W cfg alerts_enabled image_bytes image_cv h))
    = [EmailSink; MessagingSink]
  <->
  n <> 0%nat /\
  alerts_enabled = true /\
  exists members,
    v = JObject members /\
    members <> [] /\
    truthy (dict_get members "mask_detected" (JBool false)) = false.
Proof.
  intros Hd Ha.
  destruct (detect_faces_run W image_cv h) as (out' & n' & h1 & td & Ed & Td & Hframe).
  destruct (analyze_image_for_mask_run W cfg image_bytes) as (v' & tc & Tc & Ec).
  rewrite Ed in Hd. rewrite Ec in Ha. cbn in Hd, Ha.
  injection Hd as -> ->. injection Ha as ->.
  pipeline. destruct n as [|n]; pipeline.
  { inversion Td; subst; read_trace;
      (split; [discriminate|intros (Hn & _); contradiction]). }
  destruct (truthy v) eqn:Htruthy; pipeline.
  2: { inversion Td; subst; inversion Tc; subst; read_trace;
         (split; [discriminate|]);
         intros (_ & _ & members & Hv & Hne & _);
         try discriminate; subst;
         apply truthy_object in Hne; congruence. }
  destruct v; pipeline;
    try (inversion Td; subst; inversion Tc; subst; read_trace;
         (split; [discriminate|]);
         intros (_ & _ & ms & Hv & _); discriminate).
  destruct (truthy (dict_get members "mask_detected" (JBool false))) eqn:Hmask;
    unfold dict_get in Hmask; rewrite Hmask;
    destruct alerts_enabled; pipeline;
    inversion Td; subst; inversion Tc; subst;
    try (destruct Te; destruct Tw); read_trace;
    (split;
     [ try discriminate; intros _;
       (split; [discriminate|]); (split; [reflexivity|]);
       exists members; (split; [reflexivity|]);
       (split; [apply truthy_object; exact Htruthy|]);
       unfold dict_get; exact Hmask
     | intros (_ & Hae & ms & Hv & _ & Hm);
       try discriminate; try reflexivity;
       injection Hv as <-; unfold dict_get in Hm; congruence ]).
Qed.

(** The goal as a property of one run of the pipeline, so that the run is
    evaluated once. *)
Ltac isolate_run :=
  match goal with
  | |- context [on_analyze_image ?W ?c ?a ?b ?i ?h] =>
      pattern (on_analyze_image W c a b i h);
      match goal with
      | |- ?P ?X =>
          let Q := fresh "Q" in
          let HQ := fresh "HQ" in
          enough (forall pred, pred = P -> pred X) as HQ by exact (HQ P eq_refl);
          intros Q HQ
      end
  end.

(** Every case of a run of the pipeline, each left to [fin] with its trace
    written out entry by entry.  The runs of the detector and of the
    classifier are in the context. *)
Ltac every_case alerts_enabled fin :=
  let close :=
    (match goal with Td : detector_trace _ _ _ |- _ => inversion Td; subst end;
     try match goal with Tc : classifier_trace _ _ _ _ _ |- _ => inversion Tc; subst end;
     try match goal with Te : email_trace _ _ _ _ _ _ |- _ => destruct Te end;
     try match goal with Tw : whatsapp_trace _ _ _ _ |- _ => destruct Tw end;
     subst; cbv beta; read_more; fin) in
  isolate_run;
  pipeline;
  match goal with
  | Ed : detect_faces _ _ _ = (Ok (_, ?n), _, _) |- _ => destruct n as [|?]
  end;
  pipeline;
  [ close
  | match goal with
    | Tc : classifier_trace _ _ _ ?v _ |- _ =>
        destruct (truthy v) eqn:Htruthy; pipeline;
        [ destruct v as [| | | | | |members]; pipeline;
          [ close | close | close | close | close | close
          | destruct (truthy match dict_lookup members "mask_detected" with
                             | Some v => v
                             | None => JBool false
                             end) eqn:Hmask;
            destruct alerts_enabled; pipeline; close ]
        | close ]
    end ].

Ltac every_run W cfg alerts_enabled image_bytes image_cv h fin :=
  components W cfg image_bytes image_cv h;
  every_case alerts_enabled fin.

(** X4: a run shows at most one status, never both; sinks are entered
    only after the violation status and the sending-alerts warning were
    shown, and only with alerts enabled. *)
Theorem one_status_and_dispatch_only_after_violation
    W cfg alerts_enabled image_bytes image_cv h :
  let t := trace_of (on_analyze_image W cfg alerts_enabled image_bytes image_cv h) in
  (statuses_ok t = [] /\ statuses_violation t = [] /\ sinks_invoked t = [])
  \/
  (statuses_ok t = [status_mask_detected] /\ statuses_violation t = [] /\
   sinks_invoked t = [])
  \/
  (statuses_ok t = [] /\ statuses_violation t = [status_violation] /\
   (sinks_invoked t = [] \/
    (sinks_invoked t = [EmailSink; MessagingSink] /\
     warnings t = [sending_alerts_warning] /\
     alerts_enabled = true))).
Proof.
  intros t. subst t.
  every_run W cfg alerts_enabled image_bytes image_cv h
    ltac:(first [ left; repeat split; reflexivity
                | right; left; repeat split; reflexivity
                | right; right; split; [reflexivity|]; split; [reflexivity|];
                  first [ left; reflexivity | right; repeat split; reflexivity ] ]).
Qed.

(** X5: every run begins by entering the face detector, on the array it
    was given, and enters it once; the classifier is entered at most once,
    on the bytes the run was given; at most one request goes to the model,
    one to the mail server and one to the messaging relay. *)
Theorem each_stage_runs_at_most_once
    W cfg alerts_enabled image_bytes image_cv h :
  let t := trace_of (on_analyze_image W cfg alerts_enabled image_bytes image_cv h) in
  (exists rest,
      t = StSpinner "Step 1/2: Detecting faces..."
          :: Enter (Call_detect_faces image_cv) :: rest) /\
  detector_calls t = [image_cv] /\
  (classifier_calls t = [] \/ classifier_calls t = [image_bytes]) /\
  (length (groq_requests t) <= 1)%nat /\
  (length (smtp_requests t) <= 1)%nat /\
  (length (twilio_requests t) <= 1)%nat.
Proof.
  intros t. subst t.
  every_run W cfg alerts_enabled image_bytes image_cv h
    ltac:(split; [eexists; reflexivity|];
          split; [reflexivity|];
          split; [first [left; reflexivity | right; reflexivity]|];
          cbn [length]; lia).
Qed.

(** What the [try] block of the classifier returns is returned by the
    classifier, after one request and with no error shown. *)
Lemma analyze_image_for_mask_returned W cfg image_bytes h v :
  value_of (analyze_image_for_mask_try W cfg image_bytes h) = Ok v ->
  forall h',
    analyze_image_for_mask W cfg image_bytes h' =
    (Ok v, h', [Enter (Call_analyze_image_for_mask image_bytes);
                GroqRequest (GROQ_API_KEY cfg) (groq_request W image_bytes)]).
Proof.
  unfold analyze_image_for_mask, analyze_image_for_mask_try. run.
  fold (groq_request W image_bytes).
  destruct (Groq W (GROQ_API_KEY cfg)) as [[]|e1]; cbn; [|discriminate].
  destruct (groq_create W _ _) as [choices|e1]; cbn; [|discriminate].
  destruct (first_content choices) as [response_content|e1]; cbn; [|discriminate].
  destruct (loads W response_content) as [v'|e1]; cbn; [|discriminate].
  intros [= ->] h'. reflexivity.
Qed.

(** X6: when the model's answer parses to a value that is false in
    Python's sense ([null], [false], zero, an empty string, array or
    object), the run ends right after the request to the model: no error,
    no status, no reason, no warning is shown and no sink is entered. *)
Theorem false_verdict_ends_run_silently
    W cfg alerts_enabled image_bytes image_cv h out n v :
  value_of (detect_faces W image_cv h) = Ok (out, n) ->
  n <> 0%nat ->
  value_of (analyze_image_for_mask_try W cfg image_bytes h) = Ok v ->
  truthy v = false ->
  let r := on_analyze_image W cfg alerts_enabled image_bytes image_cv h in
  value_of r = Ok tt /\
  last (trace_of r) = Some (GroqRequest (GROQ_API_KEY cfg) (groq_request W image_bytes)) /\
  errors (trace_of r) = [] /\
  warnings (trace_of r) = [] /\
  statuses_ok (trace_of r) = [] /\
  statuses_violation (trace_of r) = [] /\
  reasons_shown (trace_of r) = [] /\
  sinks_invoked (trace_of r) = [].
Proof.
  intros Hd Hn Ha Htruthy r. subst r.
  destruct (detect_faces_run W image_cv h) as (out' & n' & h1 & td & Ed & Td & Hframe).
  pose proof (analyze_image_for_mask_returned W cfg image_bytes h v Ha) as Ec.
  rewrite Ed in Hd. cbn in Hd. injection Hd as -> ->.
  destruct n as [|n]; [contradiction|].
  pipeline. inversion Td; subst. read_trace. repeat split; reflexivity.
Qed.

(** X7: an empty list of choices, or a first choice without content, is
    caught like any other failure: the classifier shows the error of the
    failed step and returns [None]. *)
Theorem answer_without_content_is_none W cfg image_bytes h choices :
  Groq W (GROQ_API_KEY cfg) = Ok tt ->
  groq_create W (GROQ_API_KEY cfg) (groq_request W image_bytes) = Ok choices ->
  head choices = None \/ head choices = Some None ->
  let a := analyze_image_for_mask W cfg image_bytes h in
  value_of a = Ok JNull /\
  heap_of a = h /\
  errors (trace_of a) =
    [match choices with
     | [] => "Groq API Error: list index out of range"
     | _ :: _ =>
         "Groq API Error: the JSON object must be str, bytes or bytearray, not NoneType"
     end].
Proof.
  intros Hclient Hcreate Hhead a. subst a.
  unfold analyze_image_for_mask, analyze_image_for_mask_try. run.
  fold (groq_request W image_bytes). rewrite Hclient, Hcreate.
  destruct choices as [|[s|] rest]; cbn in Hhead.
  - cbn. repeat split; reflexivity.
  - destruct Hhead as [Hhead|Hhead]; discriminate.
  - cbn. repeat split; reflexivity.
Qed.

(** X8: the classifier never raises and never touches the store.  It
    sends one request to the model when the client can be built and none
    otherwise; it returns what its [try] block returns, or [None] with one
    error shown when that block raises. *)
Theorem classifier_is_exception_safe W cfg image_bytes h :
  let a := analyze_image_for_mask W cfg image_bytes h in
  let body := value_of (analyze_image_for_mask_try W cfg image_bytes h) in
  value_of a = Ok (match body with Ok v => v | Raise _ => JNull end) /\
  heap_of a = h /\
  classifier_calls (trace_of a) = [image_bytes] /\
  groq_requests (trace_of a) =
    match Groq W (GROQ_API_KEY cfg) with
    | Ok _ => [groq_request W image_bytes]
    | Raise _ => []
    end /\
  errors (trace_of a) =
    match body with
    | Ok _ => []
    | Raise e => ["Groq API Error: " +:+ exn_str e]
    end.
Proof.
  intros a body. subst a body.
  unfold analyze_image_for_mask, analyze_image_for_mask_try. run.
  destruct (Groq W (GROQ_API_KEY cfg)) as [[]|e1]; cbn.
  2: { repeat split; reflexivity. }
  destruct (groq_create W _ _) as [choices|e1]; cbn.
  2: { repeat split; reflexivity. }
  destruct (first_content choices) as [response_content|e1]; cbn.
  2: { repeat split; reflexivity. }
  destruct (loads W response_content) as [v|e1]; cbn; repeat split; reflexivity.
Qed.

(** *** The sinks, one call at a time *)

(** One conjunct of what a sink leaves behind, in a case where every
    answer of the world is known. *)
Ltac sink_goal :=
  first
    [ reflexivity
    | discriminate
    | left; split; reflexivity
    | left; reflexivity
    | right; split; [reflexivity | eexists; reflexivity]
    | right; eexists; split; reflexivity
    | intros _; eexists; repeat split; first [reflexivity | eassumption]
    | intros _; repeat split; first [reflexivity | eassumption]
    | let H := fresh in intros H; decompose record H; congruence ].

(** X9: [send_alert_email] never raises and leaves the store alone.  Each
    call shows exactly one message: the success toast when the body is a
    string that can be encoded, the image can be attached and the mail
    server accepts the session, and one error otherwise.  At most one
    session is opened, and it carries the subject, the text and the image
    the call was given, from the sender to the receiver of the secrets. *)
Theorem email_sink_reports_once W cfg subject body image_bytes h :
  let r := send_alert_email W cfg subject body image_bytes h in
  let delivered text :=
    body = JString text /\
    MIMEText_str W text = Ok tt /\
    MIMEImage W image_bytes "violation_capture.jpg" = Ok tt /\
    smtp_deliver W (alert_session cfg (alert_message cfg subject text image_bytes)) = Ok tt in
  value_of r = Ok tt /\
  heap_of r = h /\
  ((toasts (trace_of r) = [email_sent_toast] /\ errors (trace_of r) = []) \/
   (toasts (trace_of r) = [] /\ exists msg, errors (trace_of r) = [msg])) /\
  (toasts (trace_of r) = [email_sent_toast] <-> exists text, delivered text) /\
  (smtp_requests (trace_of r) = [] \/
   exists text,
     body = JString text /\
     smtp_requests (trace_of r) =
       [alert_session cfg (alert_message cfg subject text image_bytes)]).
Proof.
  intros r delivered. subst r delivered.
  unfold send_alert_email. run.
  destruct body as [| | | |text| |]; try (cbn; repeat split; sink_goal).
  cbn [MIMEText].
  destruct (MIMEText_str W text) as [[]|e] eqn:Etext;
    [|cbn; repeat split; sink_goal].
  destruct (MIMEImage W image_bytes "violation_capture.jpg") as [[]|e] eqn:Eimg;
    [|cbn; repeat split; sink_goal].
  destruct (smtp_deliver W (alert_session cfg (alert_message cfg subject text image_bytes)))
    as [[]|e] eqn:Esmtp; cbn; repeat split; sink_goal.
Qed.

(** X10: [send_whatsapp_alert] never raises and leaves the store alone.
    Each call shows exactly one message: the success toast when the client
    can be built and the relay accepts the message, and one error
    otherwise.  The message goes out once the client is built, from
    [whatsapp:] the relay's number to [whatsapp:] the operator's. *)
Theorem messaging_sink_reports_once W cfg body h :
  let r := send_whatsapp_alert W cfg body h in
  let client := twilio_Client W (TWILIO_ACCOUNT_SID cfg) (TWILIO_AUTH_TOKEN cfg) in
  value_of r = Ok tt /\
  heap_of r = h /\
  ((toasts (trace_of r) = [whatsapp_sent_toast] /\ errors (trace_of r) = []) \/
   (toasts (trace_of r) = [] /\ exists msg, errors (trace_of r) = [msg])) /\
  (toasts (trace_of r) = [whatsapp_sent_toast] <->
   client = Ok tt /\ twilio_create W (whatsapp_alert cfg body) = Ok tt) /\
  twilio_requests (trace_of r) =
    match client with
    | Ok _ => [ {| wa_account_sid := TWILIO_ACCOUNT_SID cfg;
                   wa_auth_token := TWILIO_AUTH_TOKEN cfg;
                   wa_from := "whatsapp:" +:+ TWILIO_WHATSAPP_NUMBER cfg;
                   wa_body := body;
                   wa_to := "whatsapp:" +:+ MY_WHATSAPP_NUMBER cfg |} ]
    | Raise _ => []
    end.
Proof.
  intros r client. subst r client.
  unfold send_whatsapp_alert. run.
  destruct (twilio_Client W (TWILIO_ACCOUNT_SID cfg) (TWILIO_AUTH_TOKEN cfg))
    as [[]|e] eqn:Eclient;
    [|cbn; repeat split; sink_goal].
  destruct (twilio_create W (whatsapp_alert cfg body)) as [[]|e] eqn:Ecreate;
    cbn; repeat split; sink_goal.
Qed.

(** *** A dispatching run, piece by piece *)

(** A body that is no string never reaches the mail server. *)
Lemma send_alert_email_non_text W cfg subject body image_bytes h :
  (forall text, body <> JString text) ->
  send_alert_email W cfg subject body image_bytes h =
  (Ok tt, h,
   [Enter (Call_send_alert_email subject body image_bytes);
    StError ("Failed to send email: " +:+ exn_str (no_attribute body "encode"))]).
Proof.
  intros Hbody. unfold send_alert_email. run.
  destruct body; try reflexivity. exfalso. eapply Hbody. reflexivity.
Qed.

(** A session the mail server refuses. *)
Lemma send_alert_email_undelivered W cfg subject text image_bytes h e :
  MIMEText_str W text = Ok tt ->
  MIMEImage W image_bytes "violation_capture.jpg" = Ok tt ->
  smtp_deliver W (alert_session cfg (alert_message cfg subject text image_bytes)) = Raise e ->
  send_alert_email W cfg subject (JString text) image_bytes h =
  (Ok tt, h,
   [Enter (Call_send_alert_email subject (JString text) image_bytes);
    SmtpRequest (alert_session cfg (alert_message cfg subject text image_bytes));
    StError ("Failed to send email: " +:+ exn_str e)]).
Proof.
  intros Etext Eimg Esmtp. unfold send_alert_email. run.
  cbn [MIMEText]. rewrite Etext, Eimg. run. rewrite Esmtp. reflexivity.
Qed.

(** X11: when the verdict's "reason" is not a string (a number, say),
    a dispatching run still enters both sinks, but no mail leaves: building
    the text part fails on the missing [encode], which is reported, and the
    messaging sink goes on with the reason as [str] prints it. *)
Theorem reason_that_is_no_string_blocks_the_mail
    W cfg image_bytes image_cv h out n members reason :
  value_of (detect_faces W image_cv h) = Ok (out, n) ->
  n <> 0%nat ->
  value_of (analyze_image_for_mask W cfg image_bytes h) = Ok (JObject members) ->
  truthy (dict_get members "mask_detected" (JBool false)) = false ->
  dict_lookup members "reason" = Some reason ->
  (forall text, reason <> JString text) ->
  twilio_Client W (TWILIO_ACCOUNT_SID cfg) (TWILIO_AUTH_TOKEN cfg) = Ok tt ->
  let r := on_analyze_image W cfg true image_bytes image_cv h in
  value_of r = Ok tt /\
  sinks_invoked (trace_of r) = [EmailSink; MessagingSink] /\
  smtp_requests (trace_of r) = [] /\
  head (errors (trace_of r)) =
    Some ("Failed to send email: " +:+ sq +:+ type_name reason +:+ sq
          +:+ " object has no attribute 'encode'") /\
  reasons_shown (trace_of r) = ["**AI Reason:** " +:+ str_of_value W reason] /\
  twilio_requests (trace_of r) =
    [whatsapp_alert cfg (whatsapp_heading +:+ str_of_value W reason)].
Proof.
  intros Hd Hn Ha Hmask Hreason Hnostr Hclient r. subst r.
  assert (Hne : members <> []) by (destruct members; [discriminate|congruence]).
  rewrite (dispatch_trace W cfg image_bytes image_cv h out n members Hd Hn Ha Hne Hmask).
  assert (Hget : dict_get members "reason" (JString "No reason provided.") = reason)
    by (unfold dict_get; now rewrite Hreason).
  rewrite Hget.
  assert (Hfmt : format_value W reason = str_of_value W reason).
  { destruct reason; try reflexivity. exfalso. eapply Hnostr. reflexivity. }
  rewrite Hfmt.
  rewrite send_alert_email_non_text by exact Hnostr.
  destruct (send_whatsapp_alert_run W cfg (whatsapp_heading +:+ str_of_value W reason))
    as (tw & Tw & Ew).
  rewrite Ew.
  destruct Tw; try congruence; read_trace; repeat split; reflexivity.
Qed.

(** X12: the mail server refuses the session while the relay accepts the
    message.  The run ends normally; the only error shown is the email
    failure, the only toast the WhatsApp success; one session and one
    message were sent. *)
Theorem mail_failure_leaves_messaging_untouched
    W cfg image_bytes image_cv h out n members text e :
  value_of (detect_faces W image_cv h) = Ok (out, n) ->
  n <> 0%nat ->
  value_of (analyze_image_for_mask W cfg image_bytes h) = Ok (JObject members) ->
  members <> [] ->
  truthy (dict_get members "mask_detected" (JBool false)) = false ->
  dict_get members "reason" (JString "No reason provided.") = JString text ->
  MIMEText_str W text = Ok tt ->
  MIMEImage W image_bytes "violation_capture.jpg" = Ok tt ->
  smtp_deliver W (alert_session cfg (alert_message cfg alert_subject text image_bytes))
    = Raise e ->
  twilio_Client W (TWILIO_ACCOUNT_SID cfg) (TWILIO_AUTH_TOKEN cfg) = Ok tt ->
  twilio_create W (whatsapp_alert cfg (whatsapp_heading +:+ text)) = Ok tt ->
  let r := on_analyze_image W cfg true image_bytes image_cv h in
  value_of r = Ok tt /\
  errors (trace_of r) = ["Failed to send email: " +:+ exn_str e] /\
  toasts (trace_of r) = [whatsapp_sent_toast] /\
  smtp_requests (trace_of r) =
    [alert_session cfg (alert_message cfg alert_subject text image_bytes)] /\
  twilio_requests (trace_of r) = [whatsapp_alert cfg (whatsapp_heading +:+ text)].
Proof.
  intros Hd Hn Ha Hne Hmask Hget Etext Eimg Esmtp Eclient Ecreate r. subst r.
  rewrite (dispatch_trace W cfg image_bytes image_cv h out n members Hd Hn Ha Hne Hmask).
  rewrite Hget. cbn [format_value].
  rewrite (send_alert_email_undelivered W cfg alert_subject text image_bytes _ e
             Etext Eimg Esmtp).
  destruct (send_whatsapp_alert_run W cfg (whatsapp_heading +:+ text)) as (tw & Tw & Ew).
  rewrite Ew.
  destruct Tw; try congruence; read_more; repeat split; reflexivity.
Qed.

(** *** The face locator, case by case *)


(** X13: faces are found but drawing one of the rectangles fails.  The
    detections are dropped: [detect_faces] reports the failure and returns
    the input array, still holding its pixels, with a count of zero. *)
Theorem drawing_failure_drops_the_detections
    W image_np h face_cascade pixels gray faces e :
  cv2_CascadeClassifier W "haarcascade_frontalface_default.xml" = Ok face_cascade ->
  h !! image_np = Some pixels ->
  cv2_cvtColor_BGR2GRAY W pixels = Ok gray ->
  detectMultiScale W face_cascade gray scaleFactor 5 (30, 30) = Ok faces ->
  boxes_drawn W pixels faces = Raise e ->
  let d := detect_faces W image_np h in
  faces <> [] /\
  value_of d = Ok (image_np, 0%nat) /\
  heap_of d !! image_np = Some pixels /\
  errors (trace_of d) =
    [if is_FileNotFoundError e
     then "haarcascade_frontalface_default.xml not found. Please download it."
     else "Face detection error: " +:+ exn_str e].
Proof.
  intros Ec Hpix Eg Ed Hdraw d. subst d.
  split; [intros ->; discriminate|].
  destruct (detect_faces_try_exact W image_np h _ _ _ _ Ec Hpix Eg Ed)
    as (h' & E & Hframe & _).
  rewrite Hdraw in E.
  unfold detect_faces. run. rewrite E. unfold detect_faces_except.
  assert (Hin : h' !! image_np = Some pixels).
  { rewrite Hframe; [exact Hpix|]. eapply elem_of_dom_2, Hpix. }
  destruct (is_FileNotFoundError e); run; read_trace; repeat split; assumption || reflexivity.
Qed.


(** X15: when detection succeeds, the one image a run displays is the
    annotated copy, a new array holding the rectangles, captioned with the
    number of detections (or without a number when there is none), in BGR
    order; the array the run was given keeps its pixels to the end. *)
Theorem annotated_copy_is_displayed
    W cfg alerts_enabled image_bytes image_cv h face_cascade pixels gray faces drawn :
  cv2_CascadeClassifier W "haarcascade_frontalface_default.xml" = Ok face_cascade ->
  h !! image_cv = Some pixels ->
  cv2_cvtColor_BGR2GRAY W pixels = Ok gray ->
  detectMultiScale W face_cascade gray scaleFactor 5 (30, 30) = Ok faces ->
  boxes_drawn W pixels faces = Ok drawn ->
  let r := on_analyze_image W cfg alerts_enabled image_bytes image_cv h in
  images_shown (trace_of r) =
    [StImage (fresh (dom h)) (Some drawn)
       (match faces with
        | [] => "Face Detection Result"
        | _ :: _ =>
            "Face Detection Result: " +:+ pretty (length faces) +:+ " face(s) found!"
        end)
       "BGR"] /\
  fresh (dom h) <> image_cv /\
  heap_of r !! image_cv = Some pixels.
Proof.
  intros Ec0 Hpix Eg Edet Hdraw r. subst r.
  destruct (detect_faces_exact W image_cv h _ _ _ _ _ Ec0 Hpix Eg Edet Hdraw)
    as (h1 & Ed & Hin & Hout).
  assert (Hne : fresh (dom h) <> image_cv).
  { intros Heq. pose proof (is_fresh (dom h)) as Hf. rewrite Heq in Hf.
    apply Hf. eapply elem_of_dom_2, Hpix. }
  split; [|split; [exact Hne|]].
  - remember (fresh (dom h)) as out eqn:Hout_eq.
    remember (length faces) as n eqn:Hn.
    assert (Td : detector_trace image_cv (out, n) []) by constructor.
    destruct (analyze_image_for_mask_run W cfg image_bytes) as (v & tc & Tc & Ec).
    clear Hout_eq.
    every_case alerts_enabled
      ltac:(rewrite ?Hout;
            destruct faces; try discriminate;
            rewrite ?Hn; reflexivity).
  - remember (fresh (dom h)) as out eqn:Hout_eq.
    remember (length faces) as n eqn:Hn.
    assert (Td : detector_trace image_cv (out, n) []) by constructor.
    destruct (analyze_image_for_mask_run W cfg image_bytes) as (v & tc & Tc & Ec).
    clear Hout_eq.
    every_case alerts_enabled ltac:(exact Hin).
Qed.

(** *** Analysis and display *)

(** A run of the pipeline keeps every array it found, and enters the
    detector once, on the array it was given. *)
Lemma on_analyze_image_store W cfg alerts_enabled image_bytes image_cv h :
  let r := on_analyze_image W cfg alerts_enabled image_bytes image_cv h in
  (forall a, (a ∈ dom h) -> heap_of r !! a = h !! a) /\
  detector_calls (trace_of r) = [image_cv].
Proof.
  intros r. subst r.
  every_run W cfg alerts_enabled image_bytes image_cv h
    ltac:(split; [assumption|reflexivity]).
Qed.

(** The trace of the analysis section: nothing without an image, its
    heading alone when decoding fails or the button is not pressed, and
    otherwise the heading followed by a run of the pipeline on the bytes of
    the image. *)
Lemma analysis_and_display_cases W cfg alerts_enabled source_img button h :
  let t := trace_of (analysis_and_display W cfg alerts_enabled source_img button h) in
  t = [] \/
  t = [StSubheader "2. Analyze and Get Results"] \/
  (button = true /\
   exists buffer image_cv h',
     source_img = Some buffer /\
     t = StSubheader "2. Analyze and Get Results"
         :: trace_of (on_analyze_image W cfg alerts_enabled buffer image_cv h')).
Proof.
  intros t. subst t. unfold analysis_and_display, alloc.
  destruct source_img as [buffer|]; [|left; reflexivity].
  run.
  destruct (pil_open_rgb W buffer) as [rgb|e]; run; [|right; left; reflexivity].
  destruct (cv2_cvtColor_RGB2BGR W rgb) as [bgr|e]; run; [|right; left; reflexivity].
  destruct button; run; [|right; left; reflexivity].
  right; right. split; [reflexivity|].
  match goal with
  | |- context [on_analyze_image W cfg alerts_enabled buffer ?l ?h0] =>
      exists buffer, l, h0;
      destruct (on_analyze_image W cfg alerts_enabled buffer l h0) as [[r h'] t]
  end.
  split; reflexivity.
Qed.

(** X16: an image that cannot be decoded, or converted to BGR, is no
    caught failure: the exception leaves the analysis section right after
    its heading, before any backend function is entered. *)
Theorem undecodable_image_raises W cfg alerts_enabled buffer button h e :
  pil_open_rgb W buffer = Raise e \/
  (exists rgb, pil_open_rgb W buffer = Ok rgb /\ cv2_cvtColor_RGB2BGR W rgb = Raise e) ->
  let r := analysis_and_display W cfg alerts_enabled (Some buffer) button h in
  value_of r = Raise e /\
  trace_of r = [StSubheader "2. Analyze and Get Results"] /\
  (forall a, (a ∈ dom h) -> heap_of r !! a = h !! a).
Proof.
  intros [Hopen|(rgb & Hopen & Hcvt)] r; subst r;
    unfold analysis_and_display, alloc; run; rewrite Hopen; run.
  - repeat split; reflexivity.
  - rewrite Hcvt. run. repeat split; try reflexivity.
    intros a Ha. cbn. apply lookup_insert_ne. intros <-.
    exact (is_fresh (dom h) Ha).
Qed.

(** X17: when the button is pressed on an image that decodes, the
    detector is entered once, on the array holding the BGR conversion; at
    the end the decoded array and the converted array still hold what
    decoding and conversion gave, and every array that was there before is
    as it was. *)
Theorem detection_runs_on_the_bgr_array W cfg alerts_enabled buffer h rgb bgr :
  pil_open_rgb W buffer = Ok rgb ->
  cv2_cvtColor_RGB2BGR W rgb = Ok bgr ->
  let r := analysis_and_display W cfg alerts_enabled (Some buffer) true h in
  let image_np := fresh (dom h) in
  let image_cv := fresh (dom (<[image_np := rgb]> h)) in
  image_np <> image_cv /\
  detector_calls (trace_of r) = [image_cv] /\
  heap_of r !! image_np = Some rgb /\
  heap_of r !! image_cv = Some bgr /\
  (forall a, (a ∈ dom h) -> heap_of r !! a = h !! a).
Proof.
  intros Hopen Hcvt r image_np image_cv.
  assert (Hnp : image_np ∉ dom h) by apply is_fresh.
  assert (Hcv : image_cv ∉ dom (<[image_np := rgb]> h)) by apply is_fresh.
  assert (Hne : image_np <> image_cv).
  { intros Heq. apply Hcv. rewrite <- Heq. rewrite dom_insert_L. set_solver. }
  subst r. unfold analysis_and_display, alloc. run. rewrite Hopen. run.
  rewrite Hcvt. run. fold image_np. fold image_cv.
  set (h2 := <[image_cv := bgr]> (<[image_np := rgb]> h)).
  pose proof (on_analyze_image_store W cfg alerts_enabled buffer image_cv h2) as Hrun.
  destruct (on_analyze_image W cfg alerts_enabled buffer image_cv h2) as [[r h'] t].
  cbn in Hrun. destruct Hrun as (Hframe & Hcalls).
  read_more. split; [exact Hne|]. split; [exact Hcalls|].
  assert (Hdom : dom h2 = {[image_cv]} ∪ ({[image_np]} ∪ dom h))
    by (unfold h2; now rewrite !dom_insert_L).
  split; [|split].
  - rewrite Hframe by (rewrite Hdom; set_solver).
    unfold h2. rewrite lookup_insert_ne by congruence. apply lookup_insert_eq.
  - rewrite Hframe by (rewrite Hdom; set_solver).
    unfold h2. apply lookup_insert_eq.
  - intros a Ha. rewrite Hframe by (rewrite Hdom; set_solver).
    unfold h2. rewrite !lookup_insert_ne; [reflexivity| |];
      intros <-; contradiction || (apply Hcv; rewrite dom_insert_L; set_solver).
Qed.

(** *** The whole script *)

(** The first key that cannot be read decides what [read_secrets] raises. *)
Lemma read_secrets_first_failure secrets pre k post e :
  required_keys = pre ++ k :: post ->
  Forall (fun k' => exists v, secrets k' = Ok v) pre ->
  secrets k = Raise e ->
  read_secrets secrets = Raise e.
Proof.
  intros Hkeys Hpre Hk. unfold required_keys in Hkeys. unfold read_secrets.
  repeat
    (destruct pre as [|? pre];
     [ rewrite app_nil_l in Hkeys; injection Hkeys as Hhd Htl; subst k post;
       rewrite Hk; reflexivity
     | rewrite <- app_comm_cons in Hkeys; injection Hkeys as Hhd Htl;
       apply Forall_cons in Hpre as [[? Hv] Hpre];
       rewrite <- Hhd in Hv; rewrite Hv; cbn [and_then];
       clear Hv Hhd; rename Htl into Hkeys ]).
  destruct pre; cbn in Hkeys; discriminate.
Qed.

Lemma script_events_map (t : list event) : script_events (map Script t) = t.
Proof. induction t as [|e t IH]; [reflexivity|]. cbn. unfold script_events in IH. now rewrite IH. Qed.

(** The [event] entries of a run of the script whose secrets loaded: the
    heading of the input section, then the analysis section on the image
    that was chosen. *)
Lemma app_py_loaded W S cfg :
  load_secrets (st_secrets S) = Loaded cfg ->
  script_events (entries_of (app_py W S)) =
    StSubheader "1. Provide an Image"
    :: trace_of (analysis_and_display W cfg (toggle_value S) (image_input S).1
                   (button_pressed S) ∅).
Proof.
  intros Hload. unfold app_py. rewrite Hload.
  unfold image_input.
  destruct (uploaded S) as [buffer|]; cbn [fst];
    match goal with
    | |- context [analysis_and_display ?W ?c ?a ?s ?b ?h] =>
        destruct (analysis_and_display W c a s b h) as [[r h'] t]
    end;
    cbn [trace_of entries_of snd];
    unfold script_events; cbn [omap list_omap page_config page_head app];
    fold (script_events (map Script t)); now rewrite script_events_map.
Qed.

(** The [event] entries of a run of the script whose secrets did not
    load: at most the one error. *)
Lemma app_py_not_loaded W S :
  (forall cfg, load_secrets (st_secrets S) <> Loaded cfg) ->
  script_events (entries_of (app_py W S)) = [] \/
  exists msg, script_events (entries_of (app_py W S)) = [StError msg].
Proof.
  intros Hload. unfold app_py, load_secrets in *.
  destruct (read_secrets (st_secrets S)) as [cfg|e].
  - exfalso. eapply Hload. reflexivity.
  - destruct (is_FileNotFoundError e); [right; eexists; reflexivity|].
    destruct (is_KeyError e); [right; eexists; reflexivity|left; reflexivity].
Qed.

(** X18: the secrets load exactly when each of the eight keys can be
    read, and then each field holds what its key answered. *)
Theorem secrets_load_iff_all_keys_answer secrets cfg :
  read_secrets secrets = Ok cfg <->
  secrets "GROQ_API_KEY" = Ok (GROQ_API_KEY cfg) /\
  secrets "SENDER_EMAIL" = Ok (SENDER_EMAIL cfg) /\
  secrets "EMAIL_PASSWORD" = Ok (EMAIL_PASSWORD cfg) /\
  secrets "RECEIVER_EMAIL" = Ok (RECEIVER_EMAIL cfg) /\
  secrets "TWILIO_ACCOUNT_SID" = Ok (TWILIO_ACCOUNT_SID cfg) /\
  secrets "TWILIO_AUTH_TOKEN" = Ok (TWILIO_AUTH_TOKEN cfg) /\
  secrets "TWILIO_WHATSAPP_NUMBER" = Ok (TWILIO_WHATSAPP_NUMBER cfg) /\
  secrets "MY_WHATSAPP_NUMBER" = Ok (MY_WHATSAPP_NUMBER cfg).
Proof.
  unfold read_secrets. split.
  - destruct (secrets "GROQ_API_KEY"); [|discriminate].
    destruct (secrets "SENDER_EMAIL"); [|discriminate].
    destruct (secrets "EMAIL_PASSWORD"); [|discriminate].
    destruct (secrets "RECEIVER_EMAIL"); [|discriminate].
    destruct (secrets "TWILIO_ACCOUNT_SID"); [|discriminate].
    destruct (secrets "TWILIO_AUTH_TOKEN"); [|discriminate].
    destruct (secrets "TWILIO_WHATSAPP_NUMBER"); [|discriminate].
    destruct (secrets "MY_WHATSAPP_NUMBER"); [|discriminate].
    cbn. intros [= <-]. cbn. repeat split; reflexivity.
  - intros (-> & -> & -> & -> & -> & -> & -> & ->). cbn. destruct cfg; reflexivity.
Qed.

(** X19: the first secret that cannot be read ends the script, before
    anything but the page configuration is rendered and with an empty
    store.  A missing file and a missing key each show their error and
    stop; any other exception is not caught. *)
Theorem first_unreadable_secret_ends_the_script W S pre k post e :
  required_keys = pre ++ k :: post ->
  Forall (fun k' => exists v, st_secrets S k' = Ok v) pre ->
  st_secrets S k = Raise e ->
  app_py W S =
    if is_FileNotFoundError e then
      (Stopped, ∅, [page_config; Script (StError secrets_file_error); Page Stop])
    else if is_KeyError e then
      (Stopped, ∅, [page_config; Script (StError (secret_key_error e)); Page Stop])
    else (Crashed e, ∅, [page_config]).
Proof.
  intros Hkeys Hpre Hk.
  unfold app_py, load_secrets.
  rewrite (read_secrets_first_failure _ pre k post e Hkeys Hpre Hk).
  destruct (is_FileNotFoundError e); [reflexivity|].
  destruct (is_KeyError e); reflexivity.
Qed.

(** The bytes in the trace of the analysis section are those of the
    image it was given. *)
Lemma analysis_and_display_bytes W cfg alerts_enabled source_img button h buffer :
  source_img = Some buffer ->
  let t := trace_of (analysis_and_display W cfg alerts_enabled source_img button h) in
  Forall (eq buffer) (classifier_calls t) /\
  Forall (eq (groq_request W buffer)) (groq_requests t) /\
  Forall (fun c => c.2 = buffer) (email_calls t) /\
  Forall (fun s => msg_image (smtp_message s) = buffer) (smtp_requests t).
Proof.
  intros Hsrc t. subst t.
  destruct (analysis_and_display_cases W cfg alerts_enabled source_img button h)
    as [E|[E|(_ & buffer' & image_cv & h' & Hsrc' & E)]]; rewrite E.
  - repeat split; constructor.
  - repeat split; constructor.
  - assert (buffer' = buffer) as -> by congruence.
    pose proof (on_analyze_image_dispatch W cfg alerts_enabled buffer image_cv h') as Hrun.
    cbv zeta in Hrun. destruct Hrun as (_ & Hc & Hg & He & Hs).
    read_trace. auto.
Qed.

(** X20: an uploaded file wins over the camera.  The camera widget is not
    even rendered, the rerun is the same whatever the camera holds, and the
    bytes given to the classifier, sent to the model, given to the email
    sink and attached to the mail are those of the upload. *)
Theorem uploaded_file_wins_over_camera W S cfg buffer :
  load_secrets (st_secrets S) = Loaded cfg ->
  uploaded S = Some buffer ->
  let t := entries_of (app_py W S) in
  widgets t =
    widgets (page_config :: page_head)
    ++ [FileUploader "Upload an image" ["png"; "jpg"; "jpeg"]] /\
  (forall picture,
      app_py W {| st_secrets := st_secrets S;
                  toggle_value := toggle_value S;
                  uploaded := uploaded S;
                  camera := picture;
                  button_pressed := button_pressed S |} = app_py W S) /\
  Forall (eq buffer) (classifier_calls (script_events t)) /\
  Forall (eq (groq_request W buffer)) (groq_requests (script_events t)) /\
  Forall (fun c => c.2 = buffer) (email_calls (script_events t)) /\
  Forall (fun s => msg_image (smtp_message s) = buffer) (smtp_requests (script_events t)).
Proof.
  intros Hload Hup t. subst t.
  split; [|split].
  - unfold app_py. rewrite Hload. unfold image_input. rewrite Hup.
    destruct (analysis_and_display W cfg (toggle_value S) (Some buffer)
                (button_pressed S) ∅) as [[r h'] tr].
    cbn [entries_of snd]. unfold widgets.
    cbn [omap list_omap page_config page_head app].
    induction tr as [|e tr IH]; [reflexivity|exact IH].
  - intros picture. unfold app_py, image_input. cbn. rewrite Hup. reflexivity.
  - rewrite (app_py_loaded W S cfg Hload).
    unfold image_input. rewrite Hup. cbn [fst].
    pose proof (analysis_and_display_bytes W cfg (toggle_value S) (Some buffer)
                  (button_pressed S) ∅ buffer eq_refl) as Hbytes.
    cbv zeta in Hbytes. destruct Hbytes as (Hc & Hg & He & Hs).
    read_trace. auto.
Qed.

(** X21: without an image, or without a press on "Analyze Image", a
    rerun of the script analyses nothing: no backend function is entered
    and no request leaves for the model, the mail server or the relay. *)
Theorem nothing_is_analysed_without_image_and_press W S :
  (uploaded S = None /\ camera S = None) \/ button_pressed S = false ->
  let t := script_events (entries_of (app_py W S)) in
  backend_calls t = [] /\
  groq_requests t = [] /\
  smtp_requests t = [] /\
  twilio_requests t = [].
Proof.
  intros Hidle t. subst t.
  destruct (load_secrets (st_secrets S)) as [cfg|shown|e] eqn:Hload.
  - rewrite (app_py_loaded W S cfg Hload).
    assert (Htrace :
              trace_of (analysis_and_display W cfg (toggle_value S) (image_input S).1
                          (button_pressed S) ∅) = [] \/
              trace_of (analysis_and_display W cfg (toggle_value S) (image_input S).1
                          (button_pressed S) ∅) = [StSubheader "2. Analyze and Get Results"]).
    { destruct Hidle as [[Hup Hcam]|Hbutton].
      - left. unfold image_input. rewrite Hup, Hcam. reflexivity.
      - destruct (analysis_and_display_cases W cfg (toggle_value S) (image_input S).1
                    (button_pressed S) ∅) as [E|[E|(Hb & _)]]; [auto|auto|congruence]. }
    destruct Htrace as [-> | ->]; repeat split; reflexivity.
  - destruct (app_py_not_loaded W S) as [E|[msg E]];
      [intros cfg; rewrite Hload; discriminate| |];
      rewrite E; repeat split; reflexivity.
  - destruct (app_py_not_loaded W S) as [E|[msg E]];
      [intros cfg; rewrite Hload; discriminate| |];
      rewrite E; repeat split; reflexivity.
Qed.

(** X22: with the sidebar toggle off, no rerun of the script dispatches
    anything, whatever is uploaded, detected and answered: no sink is
    entered and no request goes to the mail server or the relay. *)
Theorem toggle_off_silences_the_script W S :
  toggle_value S = false ->
  let t := script_events (entries_of (app_py W S)) in
  sinks_invoked t = [] /\
  smtp_requests t = [] /\
  twilio_requests t = [].
Proof.
  intros Hoff t. subst t.
  destruct (load_secrets (st_secrets S)) as [cfg|shown|e] eqn:Hload.
  - rewrite (app_py_loaded W S cfg Hload). rewrite Hoff.
    destruct (analysis_and_display_cases W cfg false (image_input S).1
                (button_pressed S) ∅)
      as [E|[E|(_ & buffer & image_cv & h' & _ & E)]]; rewrite E.
    + repeat split; reflexivity.
    + repeat split; reflexivity.
    + destruct (on_analyze_image_alerts_off W cfg buffer image_cv h')
        as (Hs & Hm & Ht & _).
      read_trace. auto.
  - destruct (app_py_not_loaded W S) as [E|[msg E]];
      [intros cfg; rewrite Hload; discriminate| |];
      rewrite E; repeat split; reflexivity.
  - destruct (app_py_not_loaded W S) as [E|[msg E]];
      [intros cfg; rewrite Hload; discriminate| |];
      rewrite E; repeat split; reflexivity.
Qed.

(** X23: a verdict that is true but is no JSON object (a non-empty array
    or string, a number other than zero, [true]) has no [get]: the
    attribute error leaves the run, and the script, uncaught; no status is
    shown and no sink is entered. *)
Theorem verdict_that_is_no_object_escapes
    W cfg alerts_enabled image_bytes image_cv h out n v :
  value_of (detect_faces W image_cv h) = Ok (out, n) ->
  n <> 0%nat ->
  value_of (analyze_image_for_mask W cfg image_bytes h) = Ok v ->
  truthy v = true ->
  (forall members, v <> JObject members) ->
  let r := on_analyze_image W cfg alerts_enabled image_bytes image_cv h in
  value_of r =
    Raise {| exn_cls := AttributeError;
             exn_str := sq +:+ type_name v +:+ sq +:+ " object has no attribute 'get'" |} /\
  sinks_invoked (trace_of r) = [] /\
  statuses_ok (trace_of r) = [] /\
  statuses_violation (trace_of r) = [].
Proof.
  intros Hd Hn Ha Htruthy Hobj.
  exact (non_object_verdict_raises W cfg alerts_enabled image_bytes image_cv h out n v
           Hd Hn Ha Htruthy Hobj).
Qed.

(** ** The further properties at concrete inputs *)

Ltac at_sample C :=
  cbv zeta in C;
  repeat match type of C with
         | _ /\ _ => let H := fresh "H" in destruct C as [H C]
         end;
  repeat split;
  first [ assumption
        | match goal with
          | H : _ = _ |- _ = _ => vm_compute in H; vm_compute; exact H
          end ].

(** X1 on the verdict [{"mask_detected": "false"}]: the string is true. *)
Lemma mask_worn_no_alert_witness :
  value_of (analyze_image_for_mask world_indicator_as_text sample_cfg
              sample_bytes sample_heap)
    = Ok (JObject [("mask_detected", JString "false")]) /\
  statuses_ok (trace_of (on_analyze_image world_indicator_as_text sample_cfg true
                 sample_bytes sample_image sample_heap)) = [status_mask_detected] /\
  statuses_violation (trace_of (on_analyze_image world_indicator_as_text sample_cfg true
                 sample_bytes sample_image sample_heap)) = [] /\
  sinks_invoked (trace_of (on_analyze_image world_indicator_as_text sample_cfg true
                 sample_bytes sample_image sample_heap)) = [].
Proof.
  assert (Hd : value_of (detect_faces world_indicator_as_text sample_image sample_heap)
               = Ok (2%positive, 2%nat)) by (vm_compute; reflexivity).
  assert (Ha : value_of (analyze_image_for_mask world_indicator_as_text sample_cfg
                           sample_bytes sample_heap)
               = Ok (JObject [("mask_detected", JString "false")])) by (vm_compute; reflexivity).
  assert (Hn : 2%nat <> 0%nat) by lia.
  pose proof (mask_worn_no_alert world_indicator_as_text sample_cfg true
                sample_bytes sample_image sample_heap 2%positive 2%nat _
                (JString "false") Hd Hn Ha eq_refl eq_refl) as C.
  at_sample C.
Defined.

(** X3 on the scenario with two faces. *)
Lemma alerts_dispatched_iff_witness :
  value_of (detect_faces world_violation sample_image sample_heap)
    = Ok (2%positive, 2%nat) /\
  value_of (analyze_image_for_mask world_violation sample_cfg sample_bytes sample_heap)
    = Ok violation_verdict /\
  (sinks_invoked (trace_of (on_analyze_image world_violation sample_cfg true
                 sample_bytes sample_image sample_heap)) = [EmailSink; MessagingSink]
   <->
   2%nat <> 0%nat /\
   true = true /\
   exists members,
     violation_verdict = JObject members /\
     members <> [] /\
     truthy (dict_get members "mask_detected" (JBool false)) = false).
Proof.
  assert (Hd : value_of (detect_faces world_violation sample_image sample_heap)
               = Ok (2%positive, 2%nat)) by (vm_compute; reflexivity).
  assert (Ha : value_of (analyze_image_for_mask world_violation sample_cfg
                           sample_bytes sample_heap)
               = Ok violation_verdict) by (vm_compute; reflexivity).
  assert (Hn : 2%nat <> 0%nat) by lia.
  split; [exact Hd|]. split; [exact Ha|].
  exact (alerts_dispatched_iff world_violation sample_cfg true
           sample_bytes sample_image sample_heap 2%positive 2%nat violation_verdict
           Hd Ha).
Defined.

(** X6 on the verdict [{}]. *)
Lemma false_verdict_ends_run_silently_witness :
  value_of (on_analyze_image world_empty_verdict sample_cfg true
                 sample_bytes sample_image sample_heap) = Ok tt /\
  errors (trace_of (on_analyze_image world_empty_verdict sample_cfg true
                 sample_bytes sample_image sample_heap)) = [] /\
  statuses_ok (trace_of (on_analyze_image world_empty_verdict sample_cfg true
                 sample_bytes sample_image sample_heap)) = [] /\
  statuses_violation (trace_of (on_analyze_image world_empty_verdict sample_cfg true
                 sample_bytes sample_image sample_heap)) = [].
Proof.
  assert (Hd : value_of (detect_faces world_empty_verdict sample_image sample_heap)
               = Ok (2%positive, 2%nat)) by (vm_compute; reflexivity).
  assert (Ha : value_of (analyze_image_for_mask_try world_empty_verdict sample_cfg
                           sample_bytes sample_heap)
               = Ok (JObject [])) by (vm_compute; reflexivity).
  assert (Hn : 2%nat <> 0%nat) by lia.
  pose proof (false_verdict_ends_run_silently world_empty_verdict sample_cfg true
                sample_bytes sample_image sample_heap 2%positive 2%nat (JObject [])
                Hd Hn Ha eq_refl) as C.
  at_sample C.
Defined.

(** X7 on an answer without choices. *)
Lemma answer_without_content_is_none_witness :
  value_of (analyze_image_for_mask world_no_choice sample_cfg sample_bytes sample_heap)
    = Ok JNull /\
  errors (trace_of (analyze_image_for_mask world_no_choice sample_cfg
                      sample_bytes sample_heap))
    = ["Groq API Error: list index out of range"].
Proof.
  pose proof (answer_without_content_is_none world_no_choice sample_cfg
                sample_bytes sample_heap [] eq_refl eq_refl (or_introl eq_refl)) as C.
  at_sample C.
Defined.

(** X11 on the verdict [{"mask_detected": false, "reason": 5}]. *)
Lemma reason_that_is_no_string_blocks_the_mail_witness :
  smtp_requests (trace_of (on_analyze_image world_number_reason sample_cfg true
                 sample_bytes sample_image sample_heap)) = [] /\
  head (errors (trace_of (on_analyze_image world_number_reason sample_cfg true
                 sample_bytes sample_image sample_heap)))
    = Some "Failed to send email: 'int' object has no attribute 'encode'" /\
  reasons_shown (trace_of (on_analyze_image world_number_reason sample_cfg true
                 sample_bytes sample_image sample_heap)) = ["**AI Reason:** 5"] /\
  twilio_requests (trace_of (on_analyze_image world_number_reason sample_cfg true
                 sample_bytes sample_image sample_heap)) = [whatsapp_alert sample_cfg (whatsapp_heading +:+ "5")].
Proof.
  assert (Hd : value_of (detect_faces world_number_reason sample_image sample_heap)
               = Ok (2%positive, 2%nat)) by (vm_compute; reflexivity).
  assert (Ha : value_of (analyze_image_for_mask world_number_reason sample_cfg
                           sample_bytes sample_heap)
               = Ok (JObject number_reason_verdict)) by (vm_compute; reflexivity).
  assert (Hn : 2%nat <> 0%nat) by lia.
  assert (Hs : forall text, JInt 5 <> JString text) by (intros text; discriminate).
  pose proof (reason_that_is_no_string_blocks_the_mail world_number_reason sample_cfg
                sample_bytes sample_image sample_heap 2%positive 2%nat
                number_reason_verdict (JInt 5)
                Hd Hn Ha eq_refl eq_refl Hs eq_refl) as C.
  at_sample C.
Defined.

(** X12 with the mail server down. *)
Lemma mail_failure_leaves_messaging_untouched_witness :
  value_of (on_analyze_image world_mail_down sample_cfg true
                 sample_bytes sample_image sample_heap) = Ok tt /\
  errors (trace_of (on_analyze_image world_mail_down sample_cfg true
                 sample_bytes sample_image sample_heap)) = ["Failed to send email: Connection error."] /\
  toasts (trace_of (on_analyze_image world_mail_down sample_cfg true
                 sample_bytes sample_image sample_heap)) = [whatsapp_sent_toast].
Proof.
  assert (Hd : value_of (detect_faces world_mail_down sample_image sample_heap)
               = Ok (2%positive, 2%nat)) by (vm_compute; reflexivity).
  assert (Ha : value_of (analyze_image_for_mask world_mail_down sample_cfg
                           sample_bytes sample_heap)
               = Ok (JObject [("mask_detected", JBool false);
                              ("reason", JString "visible nose and mouth")])) by (vm_compute; reflexivity).
  assert (Hn : 2%nat <> 0%nat) by lia.
  assert (Hne : [("mask_detected", JBool false);
                 ("reason", JString "visible nose and mouth")] <> [])
    by discriminate.
  pose proof (mail_failure_leaves_messaging_untouched world_mail_down sample_cfg
                sample_bytes sample_image sample_heap 2%positive 2%nat _
                "visible nose and mouth" network_down
                Hd Hn Ha Hne eq_refl eq_refl eq_refl eq_refl eq_refl eq_refl eq_refl)
    as C.
  at_sample C.
Defined.

(** X13 when the rectangles cannot be drawn. *)
Lemma drawing_failure_drops_the_detections_witness :
  value_of (detect_faces world_cannot_draw sample_image sample_heap)
    = Ok (sample_image, 0%nat) /\
  heap_of (detect_faces world_cannot_draw sample_image sample_heap) !! sample_image
    = Some sample_pixels /\
  errors (trace_of (detect_faces world_cannot_draw sample_image sample_heap))
    = ["Face detection error: Bad argument"].
Proof.
  assert (Hpix : sample_heap !! sample_image = Some sample_pixels)
    by (vm_compute; reflexivity).
  assert (Hdraw : boxes_drawn world_cannot_draw sample_pixels two_faces
                  = Raise cannot_draw) by (vm_compute; reflexivity).
  pose proof (drawing_failure_drops_the_detections world_cannot_draw
                sample_image sample_heap
                {| cascade_file := "haarcascade_frontalface_default.xml" |}
                sample_pixels [[2; 5]; [8; 11]] two_faces cannot_draw
                eq_refl Hpix eq_refl eq_refl Hdraw) as C.
  at_sample C.
Defined.

(** X15 on the scenario with two faces. *)
Lemma annotated_copy_is_displayed_witness :
  images_shown (trace_of (on_analyze_image world_violation sample_cfg true
                 sample_bytes sample_image sample_heap))
    = [StImage 2%positive (Some red_pixels)
         "Face Detection Result: 2 face(s) found!" "BGR"].
Proof.
  assert (Hpix : sample_heap !! sample_image = Some sample_pixels)
    by (vm_compute; reflexivity).
  assert (Hdrawn : boxes_drawn world_violation sample_pixels two_faces = Ok red_pixels)
    by (vm_compute; reflexivity).
  pose proof (annotated_copy_is_displayed world_violation sample_cfg true
                sample_bytes sample_image sample_heap
                {| cascade_file := "haarcascade_frontalface_default.xml" |}
                sample_pixels [[2; 5]; [8; 11]] two_faces red_pixels
                eq_refl Hpix eq_refl eq_refl Hdrawn) as C.
  at_sample C.
Defined.

(** X16 on an upload that is no image. *)
Lemma undecodable_image_raises_witness :
  value_of (analysis_and_display world_cannot_decode sample_cfg true
              (Some sample_bytes) true ∅) = Raise cannot_identify /\
  trace_of (analysis_and_display world_cannot_decode sample_cfg true
              (Some sample_bytes) true ∅)
    = [StSubheader "2. Analyze and Get Results"].
Proof.
  pose proof (undecodable_image_raises world_cannot_decode sample_cfg true
                sample_bytes true ∅ cannot_identify (or_introl eq_refl)) as C.
  at_sample C.
Defined.

(** X17 on the scenario with two faces, from an empty store. *)
Lemma detection_runs_on_the_bgr_array_witness :
  detector_calls
    (trace_of (analysis_and_display world_violation sample_cfg true
                 (Some sample_bytes) true ∅)) = [2%positive] /\
  heap_of (analysis_and_display world_violation sample_cfg true
             (Some sample_bytes) true ∅) !! 1%positive = Some sample_pixels /\
  heap_of (analysis_and_display world_violation sample_cfg true
             (Some sample_bytes) true ∅) !! 2%positive = Some sample_bgr.
Proof.
  pose proof (detection_runs_on_the_bgr_array world_violation sample_cfg true
                sample_bytes ∅ sample_pixels sample_bgr eq_refl eq_refl) as C.
  at_sample C.
Defined.

(** X19 on a secrets file without "EMAIL_PASSWORD". *)
Lemma first_unreadable_secret_ends_the_script_witness :
  app_py world_violation
    (sample_session (Some secrets_without_password) true (Some sample_bytes) None true)
  = (Stopped, ∅,
     [page_config;
      Script (StError "Missing a secret key in your secrets.toml file: 'EMAIL_PASSWORD'");
      Page Stop]).
Proof.
  assert (Hpre : Forall (fun k' => exists v,
                           secrets_of (Some secrets_without_password) k' = Ok v)
                   ["GROQ_API_KEY"; "SENDER_EMAIL"]).
  { repeat (constructor; [eexists; vm_compute; reflexivity|]). constructor. }
  assert (Hk : secrets_of (Some secrets_without_password) "EMAIL_PASSWORD"
               = Raise {| exn_cls := KeyError; exn_str := "'EMAIL_PASSWORD'" |})
    by (vm_compute; reflexivity).
  pose proof (first_unreadable_secret_ends_the_script world_violation
                (sample_session (Some secrets_without_password) true
                   (Some sample_bytes) None true)
                ["GROQ_API_KEY"; "SENDER_EMAIL"] "EMAIL_PASSWORD"
                ["RECEIVER_EMAIL"; "TWILIO_ACCOUNT_SID"; "TWILIO_AUTH_TOKEN";
                 "TWILIO_WHATSAPP_NUMBER"; "MY_WHATSAPP_NUMBER"]
                _ eq_refl Hpre Hk) as C.
  vm_compute in C. vm_compute. exact C.
Defined.

(** X20 on a session with an upload and a camera picture. *)
Lemma uploaded_file_wins_over_camera_witness :
  app_py world_violation
    (sample_session (Some sample_secrets) true (Some sample_bytes) None true)
  = app_py world_violation
      (sample_session (Some sample_secrets) true (Some sample_bytes)
         (Some camera_bytes) true) /\
  classifier_calls
    (script_events
       (entries_of
          (app_py world_violation
             (sample_session (Some sample_secrets) true (Some sample_bytes)
                (Some camera_bytes) true)))) = [sample_bytes].
Proof.
  assert (Hload : load_secrets (secrets_of (Some sample_secrets)) = Loaded sample_cfg)
    by (vm_compute; reflexivity).
  pose proof (uploaded_file_wins_over_camera world_violation
                (sample_session (Some sample_secrets) true (Some sample_bytes)
                   (Some camera_bytes) true)
                sample_cfg sample_bytes Hload eq_refl) as C.
  cbv zeta in C. destruct C as (_ & Hcamera & Hbytes & _).
  split; [exact (Hcamera None)|].
  vm_compute in Hbytes. vm_compute.
  inversion Hbytes as [|? ? Hfirst Hrest]. inversion Hrest. subst. reflexivity.
Defined.

(** X21 on a session with an upload and no press. *)
Lemma nothing_is_analysed_without_image_and_press_witness :
  backend_calls
    (script_events
       (entries_of
          (app_py world_violation
             (sample_session (Some sample_secrets) true (Some sample_bytes)
                None false)))) = [] /\
  groq_requests
    (script_events
       (entries_of
          (app_py world_violation
             (sample_session (Some sample_secrets) true (Some sample_bytes)
                None false)))) = [].
Proof.
  pose proof (nothing_is_analysed_without_image_and_press world_violation
                (sample_session (Some sample_secrets) true (Some sample_bytes)
                   None false) (or_intror eq_refl)) as C.
  at_sample C.
Defined.

(** X22 on the scenario with two faces, the toggle off. *)
Lemma toggle_off_silences_the_script_witness :
  sinks_invoked
    (script_events
       (entries_of
          (app_py world_violation
             (sample_session (Some sample_secrets) false (Some sample_bytes)
                None true)))) = [] /\
  smtp_requests
    (script_events
       (entries_of
          (app_py world_violation
             (sample_session (Some sample_secrets) false (Some sample_bytes)
                None true)))) = [] /\
  twilio_requests
    (script_events
       (entries_of
          (app_py world_violation
             (sample_session (Some sample_secrets) false (Some sample_bytes)
                None true)))) = [].
Proof.
  pose proof (toggle_off_silences_the_script world_violation
                (sample_session (Some sample_secrets) false (Some sample_bytes)
                   None true) eq_refl) as C.
  at_sample C.
Defined.

(** X23 on the verdict [[1]]. *)
Lemma verdict_that_is_no_object_escapes_witness :
  value_of (on_analyze_image world_array_verdict sample_cfg true
                 sample_bytes sample_image sample_heap)
    = Raise {| exn_cls := AttributeError;
               exn_str := "'list' object has no attribute 'get'" |} /\
  sinks_invoked (trace_of (on_analyze_image world_array_verdict sample_cfg true
                 sample_bytes sample_image sample_heap)) = [] /\
  statuses_ok (trace_of (on_analyze_image world_array_verdict sample_cfg true
                 sample_bytes sample_image sample_heap)) = [] /\
  statuses_violation (trace_of (on_analyze_image world_array_verdict sample_cfg true
                 sample_bytes sample_image sample_heap)) = [].
Proof.
  assert (Hd : value_of (detect_faces world_array_verdict sample_image sample_heap)
               = Ok (2%positive, 2%nat)) by (vm_compute; reflexivity).
  assert (Ha : value_of (analyze_image_for_mask world_array_verdict sample_cfg
                           sample_bytes sample_heap)
               = Ok (JArray [JInt 1])) by (vm_compute; reflexivity).
  assert (Hn : 2%nat <> 0%nat) by lia.
  assert (Ho : forall members, JArray [JInt 1] <> JObject members)
    by (intros members; discriminate).
  pose proof (verdict_that_is_no_object_escapes world_array_verdict sample_cfg true
                sample_bytes sample_image sample_heap 2%positive 2%nat (JArray [JInt 1])
                Hd Hn Ha eq_refl Ho) as C.
  at_sample C.
Defined.
